(** * HyperSerialPico: the statistics aggregator of [include/statistics.h]

    A shallow embedding of the anonymous statistics class (the object
    [statistics]) and the properties of its period counters, its cumulative
    current-limiter sums and the averages derived from them at report time.

    Target conventions (RP2040, arm-none-eabi, ILP32 with the ARM EABI):
    [uint16_t], [uint32_t] and [uint64_t] are 16, 32 and 64 bits wide,
    [unsigned long] is 32 bits wide, [float] is IEEE-754 binary32, and both
    [double] and [long double] are IEEE-754 binary64.  Unsigned integers are
    values of [Z] with the wrap-around written out; floating-point numbers are
    values of [spec_float] computed with the operations of [SpecFloat] at the
    precision of their C++ type (round to nearest, ties to even). *)

From Stdlib Require Import ZArith List Bool Lia.
From Stdlib Require Import Floats.SpecFloat.
Import ListNotations.

Local Open Scope Z_scope.

(** ** Unsigned machine integers *)

Module UInt.

Definition wrap (bits z : Z) : Z := z mod 2 ^ bits.

Definition wrap16 : Z -> Z := wrap 16.
Definition wrap32 : Z -> Z := wrap 32.
Definition wrap64 : Z -> Z := wrap 64.

Definition fits (bits z : Z) : Prop := 0 <= z < 2 ^ bits.

Definition fitsb (bits z : Z) : bool := (0 <=? z) && (z <? 2 ^ bits).

End UInt.

(** ** What an expression evaluates to

    The divisions and the conversions to [uint32_t] in [print] are not
    defined on every state: an integer division by zero and the conversion
    of a floating-point value whose truncation the target type cannot hold
    are undefined behaviour in C++. *)

Inductive undefined : Set :=
| DivisionByZero
| ConversionOutOfRange.

Inductive result (A : Type) : Type :=
| Ok (a : A)
| Undefined (u : undefined).

Arguments Ok {A} a.
Arguments Undefined {A} u.

Definition bind {A B : Type} (r : result A) (k : A -> result B) : result B :=
  match r with
  | Ok a => k a
  | Undefined u => Undefined u
  end.

Notation "x <- r ;; k" := (bind r (fun x => k))
  (at level 61, r at next level, right associativity).

(** ** Floating point *)

Module Float.

Definition prec32 : Z := 24.
Definition emax32 : Z := 128.
Definition prec64 : Z := 53.
Definition emax64 : Z := 1024.

(** Conversion of a floating-point value to the format [(prec, emax)]:
    exact when the value is representable (float to double, long double
    to double), rounded otherwise (double to float). *)
Definition convert (prec emax : Z) (x : spec_float) : spec_float :=
  match x with
  | S754_finite s m e => binary_round prec emax s m e
  | _ => x
  end.

Definition to_float : spec_float -> spec_float := convert prec32 emax32.
Definition to_double : spec_float -> spec_float := convert prec64 emax64.
Definition to_long_double : spec_float -> spec_float := convert prec64 emax64.

(** Conversion of an integer. *)
Definition float_of_int (z : Z) : spec_float :=
  binary_normalize prec32 emax32 z 0 false.
Definition double_of_int (z : Z) : spec_float :=
  binary_normalize prec64 emax64 z 0 false.

(** Truncation toward zero of a finite value; infinities and NaN have
    none. *)
Definition truncate (x : spec_float) : option Z :=
  match x with
  | S754_zero _ => Some 0
  | S754_finite s m e => Some (cond_Zopp s (Z.shiftl (Zpos m) e))
  | S754_infinity _ | S754_nan => None
  end.

(** [(uint32_t) x]: defined when the truncated value is a [uint32_t]. *)
Definition to_uint32 (x : spec_float) : result Z :=
  match truncate x with
  | Some z => if UInt.fitsb 32 z then Ok z else Undefined ConversionOutOfRange
  | None => Undefined ConversionOutOfRange
  end.

(** The literal [0.00001], a [double]: 0x1.4f8b588e368f1p-17. *)
Definition lit_0_00001 : spec_float :=
  S754_finite false 5902958103587057 (-69).

End Float.

(** ** The state of the aggregator *)

Record Statistics : Type := {
  startTime : Z;                      (* unsigned long *)
  goodFrames : Z;                     (* uint16_t *)
  showFrames : Z;                     (* uint16_t *)
  totalFrames : Z;                    (* uint16_t *)
  finalGoodFrames : Z;                (* uint16_t *)
  finalShowFrames : Z;                (* uint16_t *)
  finalTotalFrames : Z;               (* uint16_t *)
  milliampsSum : Z;                   (* uint64_t *)
  underpowerDesiredMilliampsSum : Z;  (* uint64_t *)
  underpowerFramesCount : Z;          (* uint64_t *)
  framesCount : Z;                    (* uint64_t *)
  underpowerPercentSum : spec_float;  (* long double *)
  powerPercentSum : spec_float        (* long double *)
}.

(** The object as its member initialisers leave it. *)
Definition initial : Statistics := {|
  startTime := 0;
  goodFrames := 0;
  showFrames := 0;
  totalFrames := 0;
  finalGoodFrames := 0;
  finalShowFrames := 0;
  finalTotalFrames := 0;
  milliampsSum := 0;
  underpowerDesiredMilliampsSum := 0;
  underpowerFramesCount := 0;
  framesCount := 0;
  underpowerPercentSum := Float.to_long_double (Float.double_of_int 0);
  powerPercentSum := Float.to_long_double (Float.double_of_int 0)
|}.

(** Every integer member holds a value of its type. *)
Record well_formed (st : Statistics) : Prop := {
  wf_startTime : UInt.fits 32 (startTime st);
  wf_goodFrames : UInt.fits 16 (goodFrames st);
  wf_showFrames : UInt.fits 16 (showFrames st);
  wf_totalFrames : UInt.fits 16 (totalFrames st);
  wf_finalGoodFrames : UInt.fits 16 (finalGoodFrames st);
  wf_finalShowFrames : UInt.fits 16 (finalShowFrames st);
  wf_finalTotalFrames : UInt.fits 16 (finalTotalFrames st);
  wf_milliampsSum : UInt.fits 64 (milliampsSum st);
  wf_underpowerDesiredMilliampsSum :
    UInt.fits 64 (underpowerDesiredMilliampsSum st);
  wf_underpowerFramesCount : UInt.fits 64 (underpowerFramesCount st);
  wf_framesCount : UInt.fits 64 (framesCount st)
}.

(** ** Member setters (one assignment each) *)

Definition set_startTime (v : Z) (st : Statistics) : Statistics :=
  {| startTime := v; goodFrames := goodFrames st; showFrames := showFrames st;
     totalFrames := totalFrames st; finalGoodFrames := finalGoodFrames st;
     finalShowFrames := finalShowFrames st;
     finalTotalFrames := finalTotalFrames st; milliampsSum := milliampsSum st;
     underpowerDesiredMilliampsSum := underpowerDesiredMilliampsSum st;
     underpowerFramesCount := underpowerFramesCount st;
     framesCount := framesCount st;
     underpowerPercentSum := underpowerPercentSum st;
     powerPercentSum := powerPercentSum st |}.

Definition set_goodFrames (v : Z) (st : Statistics) : Statistics :=
  {| startTime := startTime st; goodFrames := v; showFrames := showFrames st;
     totalFrames := totalFrames st; finalGoodFrames := finalGoodFrames st;
     finalShowFrames := finalShowFrames st;
     finalTotalFrames := finalTotalFrames st; milliampsSum := milliampsSum st;
     underpowerDesiredMilliampsSum := underpowerDesiredMilliampsSum st;
     underpowerFramesCount := underpowerFramesCount st;
     framesCount := framesCount st;
     underpowerPercentSum := underpowerPercentSum st;
     powerPercentSum := powerPercentSum st |}.

Definition set_showFrames (v : Z) (st : Statistics) : Statistics :=
  {| startTime := startTime st; goodFrames := goodFrames st; showFrames := v;
     totalFrames := totalFrames st; finalGoodFrames := finalGoodFrames st;
     finalShowFrames := finalShowFrames st;
     finalTotalFrames := finalTotalFrames st; milliampsSum := milliampsSum st;
     underpowerDesiredMilliampsSum := underpowerDesiredMilliampsSum st;
     underpowerFramesCount := underpowerFramesCount st;
     framesCount := framesCount st;
     underpowerPercentSum := underpowerPercentSum st;
     powerPercentSum := powerPercentSum st |}.

Definition set_totalFrames (v : Z) (st : Statistics) : Statistics :=
  {| startTime := startTime st; goodFrames := goodFrames st;
     showFrames := showFrames st; totalFrames := v;
     finalGoodFrames := finalGoodFrames st;
     finalShowFrames := finalShowFrames st;
     finalTotalFrames := finalTotalFrames st; milliampsSum := milliampsSum st;
     underpowerDesiredMilliampsSum := underpowerDesiredMilliampsSum st;
     underpowerFramesCount := underpowerFramesCount st;
     framesCount := framesCount st;
     underpowerPercentSum := underpowerPercentSum st;
     powerPercentSum := powerPercentSum st |}.

Definition set_finalGoodFrames (v : Z) (st : Statistics) : Statistics :=
  {| startTime := startTime st; goodFrames := goodFrames st;
     showFrames := showFrames st; totalFrames := totalFrames st;
     finalGoodFrames := v; finalShowFrames := finalShowFrames st;
     finalTotalFrames := finalTotalFrames st; milliampsSum := milliampsSum st;
     underpowerDesiredMilliampsSum := underpowerDesiredMilliampsSum st;
     underpowerFramesCount := underpowerFramesCount st;
     framesCount := framesCount st;
     underpowerPercentSum := underpowerPercentSum st;
     powerPercentSum := powerPercentSum st |}.

Definition set_finalShowFrames (v : Z) (st : Statistics) : Statistics :=
  {| startTime := startTime st; goodFrames := goodFrames st;
     showFrames := showFrames st; totalFrames := totalFrames st;
     finalGoodFrames := finalGoodFrames st; finalShowFrames := v;
     finalTotalFrames := finalTotalFrames st; milliampsSum := milliampsSum st;
     underpowerDesiredMilliampsSum := underpowerDesiredMilliampsSum st;
     underpowerFramesCount := underpowerFramesCount st;
     framesCount := framesCount st;
     underpowerPercentSum := underpowerPercentSum st;
     powerPercentSum := powerPercentSum st |}.

Definition set_finalTotalFrames (v : Z) (st : Statistics) : Statistics :=
  {| startTime := startTime st; goodFrames := goodFrames st;
     showFrames := showFrames st; totalFrames := totalFrames st;
     finalGoodFrames := finalGoodFrames st;
     finalShowFrames := finalShowFrames st; finalTotalFrames := v;
     milliampsSum := milliampsSum st;
     underpowerDesiredMilliampsSum := underpowerDesiredMilliampsSum st;
     underpowerFramesCount := underpowerFramesCount st;
     framesCount := framesCount st;
     underpowerPercentSum := underpowerPercentSum st;
     powerPercentSum := powerPercentSum st |}.

Definition set_milliampsSum (v : Z) (st : Statistics) : Statistics :=
  {| startTime := startTime st; goodFrames := goodFrames st;
     showFrames := showFrames st; totalFrames := totalFrames st;
     finalGoodFrames := finalGoodFrames st;
     finalShowFrames := finalShowFrames st;
     finalTotalFrames := finalTotalFrames st; milliampsSum := v;
     underpowerDesiredMilliampsSum := underpowerDesiredMilliampsSum st;
     underpowerFramesCount := underpowerFramesCount st;
     framesCount := framesCount st;
     underpowerPercentSum := underpowerPercentSum st;
     powerPercentSum := powerPercentSum st |}.

Definition set_underpowerDesiredMilliampsSum (v : Z) (st : Statistics)
  : Statistics :=
  {| startTime := startTime st; goodFrames := goodFrames st;
     showFrames := showFrames st; totalFrames := totalFrames st;
     finalGoodFrames := finalGoodFrames st;
     finalShowFrames := finalShowFrames st;
     finalTotalFrames := finalTotalFrames st; milliampsSum := milliampsSum st;
     underpowerDesiredMilliampsSum := v;
     underpowerFramesCount := underpowerFramesCount st;
     framesCount := framesCount st;
     underpowerPercentSum := underpowerPercentSum st;
     powerPercentSum := powerPercentSum st |}.

Definition set_underpowerFramesCount (v : Z) (st : Statistics) : Statistics :=
  {| startTime := startTime st; goodFrames := goodFrames st;
     showFrames := showFrames st; totalFrames := totalFrames st;
     finalGoodFrames := finalGoodFrames st;
     finalShowFrames := finalShowFrames st;
     finalTotalFrames := finalTotalFrames st; milliampsSum := milliampsSum st;
     underpowerDesiredMilliampsSum := underpowerDesiredMilliampsSum st;
     underpowerFramesCount := v; framesCount := framesCount st;
     underpowerPercentSum := underpowerPercentSum st;
     powerPercentSum := powerPercentSum st |}.

Definition set_framesCount (v : Z) (st : Statistics) : Statistics :=
  {| startTime := startTime st; goodFrames := goodFrames st;
     showFrames := showFrames st; totalFrames := totalFrames st;
     finalGoodFrames := finalGoodFrames st;
     finalShowFrames := finalShowFrames st;
     finalTotalFrames := finalTotalFrames st; milliampsSum := milliampsSum st;
     underpowerDesiredMilliampsSum := underpowerDesiredMilliampsSum st;
     underpowerFramesCount := underpowerFramesCount st; framesCount := v;
     underpowerPercentSum := underpowerPercentSum st;
     powerPercentSum := powerPercentSum st |}.

Definition set_underpowerPercentSum (v : spec_float) (st : Statistics)
  : Statistics :=
  {| startTime := startTime st; goodFrames := goodFrames st;
     showFrames := showFrames st; totalFrames := totalFrames st;
     finalGoodFrames := finalGoodFrames st;
     finalShowFrames := finalShowFrames st;
     finalTotalFrames := finalTotalFrames st; milliampsSum := milliampsSum st;
     underpowerDesiredMilliampsSum := underpowerDesiredMilliampsSum st;
     underpowerFramesCount := underpowerFramesCount st;
     framesCount := framesCount st; underpowerPercentSum := v;
     powerPercentSum := powerPercentSum st |}.

Definition set_powerPercentSum (v : spec_float) (st : Statistics)
  : Statistics :=
  {| startTime := startTime st; goodFrames := goodFrames st;
     showFrames := showFrames st; totalFrames := totalFrames st;
     finalGoodFrames := finalGoodFrames st;
     finalShowFrames := finalShowFrames st;
     finalTotalFrames := finalTotalFrames st; milliampsSum := milliampsSum st;
     underpowerDesiredMilliampsSum := underpowerDesiredMilliampsSum st;
     underpowerFramesCount := underpowerFramesCount st;
     framesCount := framesCount st;
     underpowerPercentSum := underpowerPercentSum st; powerPercentSum := v |}.

(** Statements in sequence: [st |> s1 |> s2] runs [s1], then [s2]. *)
Notation "st |> f" := (f st) (at level 45, left associativity, only parsing).

(** ** The member functions *)


Definition increaseTotal (st : Statistics) : Statistics :=
  set_totalFrames (UInt.wrap16 (totalFrames st + 1)) st.

Definition increaseShow (st : Statistics) : Statistics :=
  set_showFrames (UInt.wrap16 (showFrames st + 1)) st.

Definition increaseGood (st : Statistics) : Statistics :=
  set_goodFrames (UInt.wrap16 (goodFrames st + 1)) st.


(** The test [std::fabs(1 - underpowerPercentage) < 0.00001]: the
    subtraction and the absolute value are computed in [float], the
    comparison in [double]. *)
Definition currentLimited (underpowerPercentage : spec_float) : bool :=
  SFltb
    (Float.to_double
       (SFabs (SFsub Float.prec32 Float.emax32
                 (Float.float_of_int 1) underpowerPercentage)))
    Float.lit_0_00001.

(** [sum += x] for a [long double] sum and a [float] x. *)
Definition accumulate (sum x : spec_float) : spec_float :=
  SFadd Float.prec64 Float.emax64 sum (Float.to_long_double x).

Definition updatePowerStats
    (powerPercentage underpowerPercentage : spec_float)
    (milliamps underpowerDesiredMilliamps : Z)
    (st : Statistics) : Statistics :=
  let st := st |> set_framesCount (UInt.wrap64 (framesCount st + 1)) in
  let st :=
    if currentLimited underpowerPercentage then
      let st :=
        st |> set_underpowerFramesCount
                (UInt.wrap64 (underpowerFramesCount st + 1)) in
      let st :=
        st |> set_underpowerPercentSum
                (accumulate (underpowerPercentSum st) underpowerPercentage) in
      st |> set_underpowerDesiredMilliampsSum
              (UInt.wrap64 (underpowerDesiredMilliampsSum st
                            + underpowerDesiredMilliamps))
    else st in
  let st :=
    st |> set_powerPercentSum
            (accumulate (powerPercentSum st) powerPercentage) in
  let st := st |> set_milliampsSum (UInt.wrap64 (milliampsSum st + milliamps)) in
  st |> set_underpowerDesiredMilliampsSum
          (UInt.wrap64 (underpowerDesiredMilliampsSum st
                        + underpowerDesiredMilliamps)).

Definition update (currentTime : Z) (st : Statistics) : Statistics :=
  let st :=
    if 0 <? totalFrames st then
      let st := st |> set_finalShowFrames (showFrames st) in
      let st :=
        st |> set_finalGoodFrames (Z.min (goodFrames st) (totalFrames st)) in
      st |> set_finalTotalFrames (totalFrames st)
    else st in
  st |> set_startTime currentTime
     |> set_goodFrames 0
     |> set_totalFrames 0
     |> set_showFrames 0.

Definition reset (currentTime : Z) (st : Statistics) : Statistics :=
  st |> set_startTime currentTime
     |> set_finalShowFrames 0
     |> set_finalGoodFrames 0
     |> set_finalTotalFrames 0
     |> set_goodFrames 0
     |> set_totalFrames 0
     |> set_showFrames 0
     |> set_milliampsSum 0
     |> set_underpowerDesiredMilliampsSum 0
     |> set_underpowerFramesCount 0
     |> set_framesCount 0
     |> set_underpowerPercentSum (Float.to_long_double (Float.double_of_int 0))
     |> set_powerPercentSum (Float.to_long_double (Float.double_of_int 0)).

Definition lightReset (curTime : Z) (hasData : bool) (st : Statistics)
  : Statistics :=
  let st := if hasData then st |> set_startTime curTime else st in
  st |> set_goodFrames 0
     |> set_totalFrames 0
     |> set_showFrames 0.

(** ** Report rendering *)

(** A FreeRTOS task handle as [print] uses it: [nullptr], or a task whose
    stack high-water mark (the value of [uxTaskGetStackHighWaterMark]) is
    given. *)
Definition TaskHandle_t : Type := option Z.

Definition stackHighWaterMark (taskHandle : TaskHandle_t) : Z :=
  match taskHandle with
  | Some mark => mark
  | None => 0
  end.

(** Unsigned division [a / b]. *)
Definition udiv (a b : Z) : result Z :=
  if b =? 0 then Undefined DivisionByZero else Ok (a / b).

(** [(float) ((double) sum / (double) count) * 100] *)
Definition percentAverage (sum : spec_float) (count : Z) : spec_float :=
  SFmul Float.prec32 Float.emax32
    (Float.to_float
       (SFdiv Float.prec64 Float.emax64
          (Float.to_double sum) (Float.double_of_int count)))
    (Float.float_of_int 100).

(** [(uint32_t) ((double) sum / (double) count)] *)
Definition milliampsPerFrame (sum count : Z) : result Z :=
  Float.to_uint32
    (SFdiv Float.prec64 Float.emax64
       (Float.double_of_int sum) (Float.double_of_int count)).

(** The four local variables of [print]. *)
Definition powerPercentAverage (st : Statistics) : spec_float :=
  percentAverage (powerPercentSum st) (framesCount st).

Definition milliampsAverage (st : Statistics) : result Z :=
  milliampsPerFrame (milliampsSum st) (framesCount st).

Definition underpowerPercentAverage (st : Statistics) : spec_float :=
  percentAverage (underpowerPercentSum st) (underpowerFramesCount st).

Definition underpowerRequestedMilliampsAverage (st : Statistics) : result Z :=
  milliampsPerFrame (underpowerDesiredMilliampsSum st)
    (underpowerFramesCount st).

(** The values the four [snprintf] calls format, in the order of their
    arguments. *)
Record Report : Type := {
  (* "HyperHDR frames: ..." *)
  report_finalShowFrames : Z;
  report_finalTotalFrames : Z;
  report_finalGoodFrames : Z;
  report_incomplete : Z;
  report_mem1 : Z;
  report_mem2 : Z;
  report_heap : Z;
  (* "Current limiter: ..." *)
  report_framesCount : Z;
  report_underpowerFramesCount : Z;
  report_underpowerFramesShare : Z;
  (* "... mA average ..." *)
  report_milliampsAverage : Z;
  report_underpowerRequestedMilliampsAverage : Z;
  report_requestedShare : Z;
  (* "... average load ..." *)
  report_powerPercentAverage : spec_float;
  report_underpowerPercentAverage : spec_float
}.

(** The expressions of [print] after its four assignments. *)
Definition render (taskHandle1 taskHandle2 : TaskHandle_t) (freeHeap : Z)
    (st : Statistics) : result Report :=
  let ppa := powerPercentAverage st in
  ma <- milliampsAverage st ;;
  let upa := underpowerPercentAverage st in
  urma <- underpowerRequestedMilliampsAverage st ;;
  share <- udiv (UInt.wrap64 (underpowerFramesCount st * 100))
                (framesCount st) ;;
  requested <- udiv (UInt.wrap32 (urma * 100)) ma ;;
  Ok {| report_finalShowFrames := finalShowFrames st;
        report_finalTotalFrames := finalTotalFrames st;
        report_finalGoodFrames := finalGoodFrames st;
        report_incomplete := finalTotalFrames st - finalGoodFrames st;
        report_mem1 := stackHighWaterMark taskHandle1;
        report_mem2 := stackHighWaterMark taskHandle2;
        report_heap := freeHeap;
        report_framesCount := framesCount st;
        report_underpowerFramesCount := underpowerFramesCount st;
        report_underpowerFramesShare := share;
        report_milliampsAverage := ma;
        report_underpowerRequestedMilliampsAverage := urma;
        report_requestedShare := requested;
        report_powerPercentAverage := ppa;
        report_underpowerPercentAverage := upa |}.

(** [print]: the state it leaves, and the report it formats when every
    expression of it is defined. *)
Definition print (curTime : Z) (taskHandle1 taskHandle2 : TaskHandle_t)
    (freeHeap : Z) (st : Statistics) : Statistics * result Report :=
  let st :=
    st |> set_startTime curTime
       |> set_goodFrames 0
       |> set_totalFrames 0
       |> set_showFrames 0 in
  (st, render taskHandle1 taskHandle2 freeHeap st).

(** ** Calls and call sequences *)

Inductive call : Type :=
| IncreaseTotal
| IncreaseShow
| IncreaseGood
| UpdatePowerStats (powerPercentage underpowerPercentage : spec_float)
                   (milliamps underpowerDesiredMilliamps : Z)
| Update (currentTime : Z)
| Print (curTime : Z) (taskHandle1 taskHandle2 : TaskHandle_t) (freeHeap : Z)
| Reset (currentTime : Z)
| LightReset (curTime : Z) (hasData : bool).

(** The state a call leaves. *)
Definition exec (c : call) (st : Statistics) : Statistics :=
  match c with
  | IncreaseTotal => increaseTotal st
  | IncreaseShow => increaseShow st
  | IncreaseGood => increaseGood st
  | UpdatePowerStats p u m d => updatePowerStats p u m d st
  | Update t => update t st
  | Print t h1 h2 heap => fst (print t h1 h2 heap st)
  | Reset t => reset t st
  | LightReset t hasData => lightReset t hasData st
  end.

Definition run (calls : list call) (st : Statistics) : Statistics :=
  fold_left (fun s c => exec c s) calls st.

(** The frame events of one period. *)
Definition is_frame_event (c : call) : bool :=
  match c with
  | IncreaseTotal | IncreaseShow | IncreaseGood => true
  | _ => false
  end.

Definition is_increaseTotal (c : call) : bool :=
  match c with IncreaseTotal => true | _ => false end.

Definition is_increaseShow (c : call) : bool :=
  match c with IncreaseShow => true | _ => false end.

Definition is_increaseGood (c : call) : bool :=
  match c with IncreaseGood => true | _ => false end.

Definition count (p : call -> bool) (calls : list call) : Z :=
  Z.of_nat (length (filter p calls)).

(** The samples the current limiter reports, one per frame. *)
Record PowerSample : Type := {
  powerPercentage : spec_float;
  underpowerPercentage : spec_float;
  milliamps : Z;
  underpowerDesiredMilliamps : Z
}.

Definition record (s : PowerSample) (st : Statistics) : Statistics :=
  updatePowerStats (powerPercentage s) (underpowerPercentage s)
    (milliamps s) (underpowerDesiredMilliamps s) st.

Definition recordAll (samples : list PowerSample) (st : Statistics)
  : Statistics :=
  fold_left (fun s x => record x s) samples st.

Definition limited (s : PowerSample) : bool :=
  currentLimited (underpowerPercentage s).

(** ** Values of the scenarios *)

Module Scenario.

(** The arguments [0.5] and [1.0], [double] literals passed as [float]. *)
Definition half : spec_float :=
  Float.to_float
    (SFdiv Float.prec64 Float.emax64
       (Float.double_of_int 1) (Float.double_of_int 2)).

Definition one : spec_float := Float.to_float (Float.double_of_int 1).

Definition afterOneFrame : Statistics :=
  updatePowerStats half one 1000 2000 initial.

(** A frame at the largest current a [uint32_t] holds. *)
Definition fullScale : PowerSample :=
  {| powerPercentage := one; underpowerPercentage := one;
     milliamps := 4294967295; underpowerDesiredMilliamps := 4294967295 |}.

(** Three frames at 1500 mA with different loads and requests. *)
Definition steadyDraw : list PowerSample :=
  [ {| powerPercentage := half; underpowerPercentage := one;
       milliamps := 1500; underpowerDesiredMilliamps := 1800 |};
    {| powerPercentage := one; underpowerPercentage := half;
       milliamps := 1500; underpowerDesiredMilliamps := 1500 |};
    {| powerPercentage := half; underpowerPercentage := one;
       milliamps := 1500; underpowerDesiredMilliamps := 2600 |} ].

End Scenario.

(** * Properties *)

(** ** Machine arithmetic *)

Lemma wrap_fits (bits z : Z) : 0 <= bits -> UInt.fits bits (UInt.wrap bits z).
Proof.
  intros Hbits. unfold UInt.fits, UInt.wrap.
  apply Z.mod_pos_bound. apply Z.pow_pos_nonneg; lia.
Qed.

Lemma wrap_small (bits z : Z) : UInt.fits bits z -> UInt.wrap bits z = z.
Proof. unfold UInt.fits, UInt.wrap. intros H. now apply Z.mod_small. Qed.

Lemma wrap_add_l (bits a b : Z) :
  UInt.wrap bits (UInt.wrap bits a + b) = UInt.wrap bits (a + b).
Proof. unfold UInt.wrap. apply Zplus_mod_idemp_l. Qed.

Lemma wrap64_fits (z : Z) : UInt.fits 64 (UInt.wrap64 z).
Proof. apply wrap_fits. lia. Qed.

Lemma wrap16_fits (z : Z) : UInt.fits 16 (UInt.wrap16 z).
Proof. apply wrap_fits. lia. Qed.

Lemma wrap64_add_l (a b : Z) :
  UInt.wrap64 (UInt.wrap64 a + b) = UInt.wrap64 (a + b).
Proof. apply wrap_add_l. Qed.

Lemma wrap16_add_l (a b : Z) :
  UInt.wrap16 (UInt.wrap16 a + b) = UInt.wrap16 (a + b).
Proof. apply wrap_add_l. Qed.

(** ** The threshold of the current-limited test *)

(** [Float.lit_0_00001] is the [double] nearest to 1/100000: the correctly
    rounded quotient of 1 by 100000. *)
Lemma lit_0_00001_nearest :
  SFdiv Float.prec64 Float.emax64
    (Float.double_of_int 1) (Float.double_of_int 100000)
  = Float.lit_0_00001.
Proof. vm_compute. reflexivity. Qed.

(** A frame limited to exactly 100% is current-limited, a frame at 50% is
    not, and neither is NaN. *)
Lemma currentLimited_examples :
  currentLimited Scenario.one = true
  /\ currentLimited Scenario.half = false
  /\ currentLimited S754_nan = false.
Proof. vm_compute. repeat split. Qed.

(** ** What [updatePowerStats] does to each integer member *)

Section UpdatePowerStats.

Variables (p u : spec_float) (m d : Z) (st : Statistics).

Lemma updatePowerStats_framesCount :
  framesCount (updatePowerStats p u m d st)
  = UInt.wrap64 (framesCount st + 1).
Proof. unfold updatePowerStats. now destruct (currentLimited u). Qed.

Lemma updatePowerStats_underpowerFramesCount :
  underpowerFramesCount (updatePowerStats p u m d st)
  = if currentLimited u
    then UInt.wrap64 (underpowerFramesCount st + 1)
    else underpowerFramesCount st.
Proof. unfold updatePowerStats. now destruct (currentLimited u). Qed.

Lemma updatePowerStats_milliampsSum :
  milliampsSum (updatePowerStats p u m d st)
  = UInt.wrap64 (milliampsSum st + m).
Proof. unfold updatePowerStats. now destruct (currentLimited u). Qed.

Lemma updatePowerStats_underpowerDesiredMilliampsSum :
  underpowerDesiredMilliampsSum (updatePowerStats p u m d st)
  = if currentLimited u
    then UInt.wrap64
           (UInt.wrap64 (underpowerDesiredMilliampsSum st + d) + d)
    else UInt.wrap64 (underpowerDesiredMilliampsSum st + d).
Proof. unfold updatePowerStats. now destruct (currentLimited u). Qed.

Lemma updatePowerStats_period :
  startTime (updatePowerStats p u m d st) = startTime st
  /\ goodFrames (updatePowerStats p u m d st) = goodFrames st
  /\ showFrames (updatePowerStats p u m d st) = showFrames st
  /\ totalFrames (updatePowerStats p u m d st) = totalFrames st
  /\ finalGoodFrames (updatePowerStats p u m d st) = finalGoodFrames st
  /\ finalShowFrames (updatePowerStats p u m d st) = finalShowFrames st
  /\ finalTotalFrames (updatePowerStats p u m d st) = finalTotalFrames st.
Proof. unfold updatePowerStats. now destruct (currentLimited u). Qed.

End UpdatePowerStats.

(** ** The members stay in the range of their types *)

(** The times a caller passes are [unsigned long] values. *)
Definition time_fits (c : call) : Prop :=
  match c with
  | Update t | Reset t | LightReset t _ | Print t _ _ _ => UInt.fits 32 t
  | _ => True
  end.

Lemma initial_well_formed : well_formed initial.
Proof. constructor; unfold UInt.fits; simpl; lia. Qed.

Lemma exec_well_formed (c : call) (st : Statistics) :
  time_fits c -> well_formed st -> well_formed (exec c st).
Proof.
  intros Ht [].
  destruct c as [| | |p u m d|t|t h1 h2 heap|t|t hasData]; cbn [exec].
  - constructor; try assumption. apply wrap16_fits.
  - constructor; try assumption. apply wrap16_fits.
  - constructor; try assumption. apply wrap16_fits.
  - destruct (updatePowerStats_period p u m d st)
      as (E1 & E2 & E3 & E4 & E5 & E6 & E7).
    constructor; rewrite ?E1, ?E2, ?E3, ?E4, ?E5, ?E6, ?E7; try assumption.
    + rewrite updatePowerStats_milliampsSum. apply wrap64_fits.
    + rewrite updatePowerStats_underpowerDesiredMilliampsSum.
      destruct (currentLimited u); apply wrap64_fits.
    + rewrite updatePowerStats_underpowerFramesCount.
      destruct (currentLimited u); [apply wrap64_fits|assumption].
    + rewrite updatePowerStats_framesCount. apply wrap64_fits.
  - unfold update.
    destruct (0 <? totalFrames st); constructor; simpl; try assumption;
      unfold UInt.fits in *; simpl; lia.
  - constructor; simpl; try assumption; unfold UInt.fits; simpl; lia.
  - constructor; simpl; try assumption; unfold UInt.fits; simpl; lia.
  - destruct hasData; constructor; simpl; try assumption;
      unfold UInt.fits; simpl; lia.
Qed.

Lemma run_well_formed (calls : list call) :
  Forall time_fits calls ->
  forall st : Statistics, well_formed st -> well_formed (run calls st).
Proof.
  induction 1 as [|c calls Hc _ IH]; intros st Hst; [exact Hst|].
  apply IH. now apply exec_well_formed.
Qed.

(** ** C1: one current-limited frame, then the report *)

(** C1. From the all-zero state, one call [updatePowerStats(0.5, 1.0, 1000,
    2000)] followed by [print] formats framesCount = 1,
    underpowerFramesCount = 1, milliampsAverage = 1000, powerPercentAverage
    = 50.0 and underpowerPercentAverage = 100.0 as the scenario says, but
    underpowerRequestedMilliampsAverage = 4000 where the scenario says 2000:
    the frame is current-limited, so its desired current is added to
    [underpowerDesiredMilliampsSum] twice. *)
Theorem single_limited_frame_report :
  forall (curTime : Z) (taskHandle1 taskHandle2 : TaskHandle_t) (freeHeap : Z),
  exists rep : Report,
    snd (print curTime taskHandle1 taskHandle2 freeHeap Scenario.afterOneFrame)
    = Ok rep
    /\ report_framesCount rep = 1
    /\ report_underpowerFramesCount rep = 1
    /\ report_milliampsAverage rep = 1000
    /\ report_underpowerRequestedMilliampsAverage rep = 4000
    /\ report_powerPercentAverage rep = Float.float_of_int 50
    /\ report_underpowerPercentAverage rep = Float.float_of_int 100.
Proof.
  intros curTime taskHandle1 taskHandle2 freeHeap.
  eexists. split.
  - vm_compute. reflexivity.
  - vm_compute. repeat split.
Qed.

(** ** C2: the desired current is counted twice for a limited frame *)

(** C2. One call of [updatePowerStats] adds [2 * underpowerDesiredMilliamps]
    to [underpowerDesiredMilliampsSum] when the frame is current-limited and
    [underpowerDesiredMilliamps] when it is not: in 64-bit unsigned
    arithmetic always, and as integers whenever the new sum is below 2^64. *)
Theorem desired_milliamps_counted_twice_when_limited :
  forall (p u : spec_float) (m d : Z) (st : Statistics),
    let before := underpowerDesiredMilliampsSum st in
    let after := underpowerDesiredMilliampsSum (updatePowerStats p u m d st) in
    (currentLimited u = true ->
       after = UInt.wrap64 (before + 2 * d)
       /\ (UInt.fits 64 (before + 2 * d) -> after = before + 2 * d))
    /\ (currentLimited u = false ->
          after = UInt.wrap64 (before + d)
          /\ (UInt.fits 64 (before + d) -> after = before + d)).
Proof.
  intros p u m d st before after. subst before after.
  rewrite updatePowerStats_underpowerDesiredMilliampsSum.
  split; intros ->.
  - assert (E : UInt.wrap64
                  (UInt.wrap64 (underpowerDesiredMilliampsSum st + d) + d)
                = UInt.wrap64 (underpowerDesiredMilliampsSum st + 2 * d)).
    { rewrite wrap64_add_l. f_equal. lia. }
    split; [exact E|]. intros Hfit. rewrite E. now apply wrap_small.
  - split; [reflexivity|]. intros Hfit. now apply wrap_small.
Qed.

Lemma desired_milliamps_counted_twice_witness :
  underpowerDesiredMilliampsSum
    (updatePowerStats Scenario.half Scenario.one 1000 2000 initial)
  = 0 + 2 * 2000
  /\ underpowerDesiredMilliampsSum
       (updatePowerStats Scenario.half Scenario.half 1000 2000 initial)
     = 0 + 2000.
Proof.
  split.
  - apply (desired_milliamps_counted_twice_when_limited
             Scenario.half Scenario.one 1000 2000 initial).
    + vm_compute. reflexivity.
    + unfold UInt.fits. simpl. lia.
  - apply (desired_milliamps_counted_twice_when_limited
             Scenario.half Scenario.half 1000 2000 initial).
    + vm_compute. reflexivity.
    + unfold UInt.fits. simpl. lia.
Defined.

(** ** C3: the report right after a reset *)

(** C3. After [reset], with no frame processed, [print] divides by zero:
    both percentage averages are NaN, neither milliamp average is defined
    (the conversion of NaN to [uint32_t]), the integer division by
    [framesCount] is a division by zero, and [print] formats no report. *)
Theorem report_after_reset_is_undefined :
  forall (currentTime curTime : Z) (taskHandle1 taskHandle2 : TaskHandle_t)
         (freeHeap : Z) (st : Statistics),
    let fresh := reset currentTime st in
    framesCount fresh = 0
    /\ underpowerFramesCount fresh = 0
    /\ powerPercentAverage fresh = S754_nan
    /\ underpowerPercentAverage fresh = S754_nan
    /\ milliampsAverage fresh = Undefined ConversionOutOfRange
    /\ underpowerRequestedMilliampsAverage fresh
       = Undefined ConversionOutOfRange
    /\ udiv (UInt.wrap64 (underpowerFramesCount fresh * 100))
            (framesCount fresh)
       = Undefined DivisionByZero
    /\ snd (print curTime taskHandle1 taskHandle2 freeHeap fresh)
       = Undefined ConversionOutOfRange.
Proof.
  intros currentTime curTime taskHandle1 taskHandle2 freeHeap st fresh.
  subst fresh. repeat split.
Qed.

(** ** The counters of one period *)

Section Period.

Lemma exec_frame_event_counters (c : call) (st : Statistics) :
  is_frame_event c = true ->
  totalFrames (exec c st)
  = (if is_increaseTotal c then UInt.wrap16 (totalFrames st + 1)
     else totalFrames st)
  /\ goodFrames (exec c st)
     = (if is_increaseGood c then UInt.wrap16 (goodFrames st + 1)
        else goodFrames st)
  /\ showFrames (exec c st)
     = (if is_increaseShow c then UInt.wrap16 (showFrames st + 1)
        else showFrames st).
Proof. destruct c; simpl; intros H; try discriminate H; repeat split. Qed.

Lemma count_cons (p : call -> bool) (c : call) (calls : list call) :
  count p (c :: calls) = (if p c then 1 else 0) + count p calls.
Proof.
  unfold count. simpl. destruct (p c); simpl length; lia.
Qed.

Lemma count_nonneg (p : call -> bool) (calls : list call) :
  0 <= count p calls.
Proof. unfold count. lia. Qed.

Lemma run_cons (c : call) (calls : list call) (st : Statistics) :
  run (c :: calls) st = run calls (exec c st).
Proof. reflexivity. Qed.

Lemma run_app (xs ys : list call) (st : Statistics) :
  run (xs ++ ys) st = run ys (run xs st).
Proof. unfold run. apply fold_left_app. Qed.

(** A run of frame events counts each kind of event modulo 2^16. *)
Lemma run_frame_events_counters (calls : list call) :
  forallb is_frame_event calls = true ->
  forall st : Statistics,
    UInt.fits 16 (totalFrames st) ->
    UInt.fits 16 (goodFrames st) ->
    UInt.fits 16 (showFrames st) ->
    totalFrames (run calls st)
    = UInt.wrap16 (totalFrames st + count is_increaseTotal calls)
    /\ goodFrames (run calls st)
       = UInt.wrap16 (goodFrames st + count is_increaseGood calls)
    /\ showFrames (run calls st)
       = UInt.wrap16 (showFrames st + count is_increaseShow calls).
Proof.
  induction calls as [|c calls IH]; intros Hev st Ht Hg Hs.
  - unfold count. simpl. rewrite !Z.add_0_r.
    unfold UInt.wrap16. now rewrite !wrap_small.
  - simpl in Hev. apply andb_true_iff in Hev. destruct Hev as [Hc Hev].
    rewrite run_cons, !count_cons.
    destruct (exec_frame_event_counters c st Hc) as (Et & Eg & Es).
    destruct (IH Hev (exec c st)) as (It & Ig & Is).
    + rewrite Et. destruct (is_increaseTotal c); [apply wrap16_fits|exact Ht].
    + rewrite Eg. destruct (is_increaseGood c); [apply wrap16_fits|exact Hg].
    + rewrite Es. destruct (is_increaseShow c); [apply wrap16_fits|exact Hs].
    + rewrite It, Ig, Is, Et, Eg, Es.
      destruct (is_increaseTotal c), (is_increaseGood c),
        (is_increaseShow c);
        rewrite ?wrap16_add_l; repeat split; f_equal; lia.
Qed.

(** Frame events leave the snapshot alone. *)
Lemma run_frame_events_snapshot (calls : list call) :
  forallb is_frame_event calls = true ->
  forall st : Statistics,
    finalGoodFrames (run calls st) = finalGoodFrames st
    /\ finalShowFrames (run calls st) = finalShowFrames st
    /\ finalTotalFrames (run calls st) = finalTotalFrames st.
Proof.
  induction calls as [|c calls IH]; intros Hev st; [now repeat split|].
  simpl in Hev. apply andb_true_iff in Hev. destruct Hev as [Hc Hev].
  rewrite run_cons.
  destruct (IH Hev (exec c st)) as (Eg & Es & Et).
  rewrite Eg, Es, Et. destruct c; try discriminate Hc; now repeat split.
Qed.

Lemma update_period_counters (t : Z) (st : Statistics) :
  goodFrames (update t st) = 0
  /\ totalFrames (update t st) = 0
  /\ showFrames (update t st) = 0
  /\ startTime (update t st) = t.
Proof. unfold update. destruct (0 <? totalFrames st); now repeat split. Qed.

Lemma update_snapshot (t : Z) (st : Statistics) :
  0 < totalFrames st ->
  finalShowFrames (update t st) = showFrames st
  /\ finalGoodFrames (update t st) = Z.min (goodFrames st) (totalFrames st)
  /\ finalTotalFrames (update t st) = totalFrames st.
Proof.
  intros H. apply Z.ltb_lt in H. unfold update. rewrite H. now repeat split.
Qed.

End Period.

(** ** C4: the snapshot clamps the good frames *)

(** C4. Whatever frame events ([increaseTotal], [increaseGood],
    [increaseShow]) follow an [update], if they leave [totalFrames] above
    zero then the next [update] sets [finalGoodFrames] to the minimum of
    [goodFrames] and [totalFrames] as they were, and [finalTotalFrames] to
    [totalFrames] as it was; with 10 [increaseTotal] and 12 [increaseGood]
    among the events, in any order, [finalGoodFrames] becomes 10. *)
Theorem update_clamps_good_frames :
  forall (calls : list call) (t0 t : Z) (st : Statistics),
    forallb is_frame_event calls = true ->
    let before := run calls (update t0 st) in
    (0 < totalFrames before ->
       finalGoodFrames (update t before)
       = Z.min (goodFrames before) (totalFrames before)
       /\ finalTotalFrames (update t before) = totalFrames before)
    /\ (count is_increaseTotal calls = 10 ->
        count is_increaseGood calls = 12 ->
        goodFrames before = 12
        /\ totalFrames before = 10
        /\ finalGoodFrames (update t before) = 10
        /\ finalTotalFrames (update t before) = 10).
Proof.
  intros calls t0 t st Hev before. split.
  - intros Hpos. destruct (update_snapshot t before Hpos) as (_ & Eg & Et).
    now split.
  - intros Htotal Hgood.
    destruct (update_period_counters t0 st) as (G0 & T0 & S0 & _).
    destruct (run_frame_events_counters calls Hev (update t0 st))
      as (Et & Eg & _);
      try (rewrite ?G0, ?T0, ?S0; unfold UInt.fits; simpl; lia).
    fold before in Et, Eg.
    rewrite T0, Htotal in Et. rewrite G0, Hgood in Eg.
    change (UInt.wrap16 (0 + 10)) with 10 in Et.
    change (UInt.wrap16 (0 + 12)) with 12 in Eg.
    assert (Hpos : 0 < totalFrames before) by lia.
    destruct (update_snapshot t before Hpos) as (_ & Fg & Ft).
    rewrite Fg, Ft, Et, Eg. now repeat split.
Qed.

Lemma update_clamps_good_frames_witness :
  let calls := repeat IncreaseTotal 10 ++ repeat IncreaseGood 12 in
  let before := run calls (update 5 initial) in
  (finalGoodFrames (update 9 before)
   = Z.min (goodFrames before) (totalFrames before)
   /\ finalTotalFrames (update 9 before) = totalFrames before)
  /\ (goodFrames before = 12
      /\ totalFrames before = 10
      /\ finalGoodFrames (update 9 before) = 10
      /\ finalTotalFrames (update 9 before) = 10).
Proof.
  intros calls before.
  pose proof (update_clamps_good_frames calls 5 9 initial eq_refl) as [H1 H2].
  split.
  - apply H1. vm_compute. reflexivity.
  - apply H2; vm_compute; reflexivity.
Defined.

(** ** C5: the two frame counts of the current limiter *)

Section Counts.

Lemma recordAll_cons (s : PowerSample) (samples : list PowerSample)
    (st : Statistics) :
  recordAll (s :: samples) st = recordAll samples (record s st).
Proof. reflexivity. Qed.

Lemma recordAll_counts (samples : list PowerSample) :
  forall st : Statistics,
    UInt.fits 64 (framesCount st) ->
    UInt.fits 64 (underpowerFramesCount st) ->
    framesCount (recordAll samples st)
    = UInt.wrap64 (framesCount st + Z.of_nat (length samples))
    /\ underpowerFramesCount (recordAll samples st)
       = UInt.wrap64 (underpowerFramesCount st
                      + Z.of_nat (length (filter limited samples))).
Proof.
  induction samples as [|s samples IH]; intros st Hf Hu.
  - simpl. rewrite !Z.add_0_r. unfold UInt.wrap64. now rewrite !wrap_small.
  - rewrite recordAll_cons.
    pose proof (updatePowerStats_framesCount
                  (powerPercentage s) (underpowerPercentage s)
                  (milliamps s) (underpowerDesiredMilliamps s) st) as Ef.
    pose proof (updatePowerStats_underpowerFramesCount
                  (powerPercentage s) (underpowerPercentage s)
                  (milliamps s) (underpowerDesiredMilliamps s) st) as Eu.
    fold (record s st) in Ef, Eu. fold (limited s) in Eu.
    destruct (IH (record s st)) as [If Iu].
    + rewrite Ef. apply wrap64_fits.
    + rewrite Eu. destruct (limited s); [apply wrap64_fits|exact Hu].
    + rewrite If, Iu, Ef, Eu. simpl filter. simpl length.
      destruct (limited s); simpl length;
        rewrite ?wrap64_add_l; split; f_equal; lia.
Qed.

Lemma filter_length_le {A : Type} (p : A -> bool) (xs : list A) :
  (length (filter p xs) <= length xs)%nat.
Proof.
  induction xs as [|x xs IH]; simpl; [lia|].
  destruct (p x); simpl; lia.
Qed.

End Counts.

(** C5. After any sequence of [updatePowerStats] calls from a reset state,
    [framesCount] is the number of calls and [underpowerFramesCount] the
    number of calls whose [underpowerPercentage] passes the test
    [fabs(1 - underpowerPercentage) < 0.00001]: as 64-bit unsigned numbers
    always, and as integers for fewer than 2^64 calls. *)
Theorem frame_counts_count_calls :
  forall (samples : list PowerSample) (currentTime : Z) (st : Statistics),
    let after := recordAll samples (reset currentTime st) in
    let calls := Z.of_nat (length samples) in
    let limitedCalls := Z.of_nat (length (filter limited samples)) in
    framesCount after = UInt.wrap64 calls
    /\ underpowerFramesCount after = UInt.wrap64 limitedCalls
    /\ (calls < 2 ^ 64 ->
        framesCount after = calls
        /\ underpowerFramesCount after = limitedCalls).
Proof.
  intros samples currentTime st after calls limitedCalls.
  destruct (recordAll_counts samples (reset currentTime st)) as [Ef Eu];
    try (unfold UInt.fits; simpl; lia).
  fold after in Ef, Eu. simpl in Ef, Eu.
  fold calls in Ef. fold limitedCalls in Eu.
  split; [exact Ef|]. split; [exact Eu|].
  intros Hlt. rewrite Ef, Eu. unfold UInt.wrap64.
  pose proof (filter_length_le limited samples) as Hle.
  split; apply wrap_small; unfold UInt.fits; subst calls limitedCalls; lia.
Qed.

Lemma frame_counts_count_calls_witness :
  let samples :=
    [ {| powerPercentage := Scenario.half; underpowerPercentage := Scenario.one;
         milliamps := 1000; underpowerDesiredMilliamps := 2000 |};
      {| powerPercentage := Scenario.half; underpowerPercentage := Scenario.half;
         milliamps := 700; underpowerDesiredMilliamps := 700 |};
      {| powerPercentage := Scenario.one; underpowerPercentage := Scenario.one;
         milliamps := 1500; underpowerDesiredMilliamps := 1900 |} ] in
  framesCount (recordAll samples (reset 4 initial)) = 3
  /\ underpowerFramesCount (recordAll samples (reset 4 initial)) = 2.
Proof.
  intros samples.
  apply (frame_counts_count_calls samples 4 initial).
  simpl. lia.
Defined.

(** ** C6: the snapshot never shows more good frames than frames *)

Definition snapshot_ordered (st : Statistics) : Prop :=
  finalGoodFrames st <= finalTotalFrames st.

Definition snapshot_orderedb (st : Statistics) : bool :=
  finalGoodFrames st <=? finalTotalFrames st.

Lemma snapshot_orderedb_spec (st : Statistics) :
  snapshot_orderedb st = true <-> snapshot_ordered st.
Proof. apply Z.leb_le. Qed.

Lemma initial_snapshot_ordered : snapshot_ordered initial.
Proof. unfold snapshot_ordered. simpl. lia. Qed.

Lemma exec_snapshot_ordered (c : call) (st : Statistics) :
  snapshot_ordered st -> snapshot_ordered (exec c st).
Proof.
  intros H. unfold snapshot_ordered in *.
  destruct c as [| | |p u m d|t|t h1 h2 heap|t|t hasData]; cbn [exec].
  - exact H.
  - exact H.
  - exact H.
  - destruct (updatePowerStats_period p u m d st)
      as (_ & _ & _ & _ & Eg & _ & Et).
    now rewrite Eg, Et.
  - unfold update. destruct (0 <? totalFrames st); simpl; [lia|exact H].
  - exact H.
  - simpl. lia.
  - destruct hasData; exact H.
Qed.

(** C6. [finalTotalFrames >= finalGoodFrames] holds in the initial state and
    every member function keeps it: [increaseTotal], [increaseGood],
    [increaseShow], [updatePowerStats], [update], [print], [reset] and
    [lightReset]. *)
Theorem snapshot_ordered_invariant :
  snapshot_ordered initial
  /\ forall (c : call) (st : Statistics),
       snapshot_ordered st -> snapshot_ordered (exec c st).
Proof.
  split; [exact initial_snapshot_ordered|exact exec_snapshot_ordered].
Qed.

Lemma snapshot_ordered_invariant_witness :
  snapshot_ordered
    (exec (Update 9)
       (run (repeat IncreaseTotal 10 ++ repeat IncreaseGood 12) initial)).
Proof.
  apply (proj2 snapshot_ordered_invariant).
  apply snapshot_orderedb_spec. vm_compute. reflexivity.
Defined.

(** The invariant along every call sequence from the initial state. *)
Lemma snapshot_ordered_reachable (calls : list call) :
  snapshot_ordered (run calls initial).
Proof.
  induction calls as [|c calls IH] using rev_ind.
  - exact initial_snapshot_ordered.
  - rewrite run_app. simpl. now apply exec_snapshot_ordered.
Qed.

(** ** C7: an empty period keeps the snapshot *)

(** C7. When [totalFrames] is zero, [update] leaves [finalGoodFrames],
    [finalShowFrames] and [finalTotalFrames] as they were: all it does is
    set [startTime] to the given time and zero the three period counters. *)
Theorem update_empty_period_keeps_snapshot :
  forall (currentTime : Z) (st : Statistics),
    totalFrames st = 0 ->
    finalGoodFrames (update currentTime st) = finalGoodFrames st
    /\ finalShowFrames (update currentTime st) = finalShowFrames st
    /\ finalTotalFrames (update currentTime st) = finalTotalFrames st
    /\ update currentTime st
       = (st |> set_startTime currentTime
             |> set_goodFrames 0
             |> set_totalFrames 0
             |> set_showFrames 0)
    /\ startTime (update currentTime st) = currentTime
    /\ goodFrames (update currentTime st) = 0
    /\ totalFrames (update currentTime st) = 0
    /\ showFrames (update currentTime st) = 0.
Proof.
  intros currentTime st H. unfold update. rewrite H. simpl. repeat split.
Qed.

Lemma update_empty_period_keeps_snapshot_witness :
  let st := increaseGood (update 5 (increaseShow (increaseTotal initial))) in
  finalGoodFrames (update 8 st) = 0
  /\ finalShowFrames (update 8 st) = 1
  /\ finalTotalFrames (update 8 st) = 1
  /\ startTime (update 8 st) = 8
  /\ goodFrames (update 8 st) = 0.
Proof.
  intros st.
  destruct (update_empty_period_keeps_snapshot 8 st eq_refl)
    as (Eg & Es & Et & _ & Etime & Egood & _).
  rewrite Eg, Es, Et, Etime, Egood. repeat split.
Defined.

(** ** C8: what [update] and [lightReset] leave alone *)

(** C8. [update] changes none of [milliampsSum],
    [underpowerDesiredMilliampsSum], [underpowerFramesCount], [framesCount],
    [underpowerPercentSum] and [powerPercentSum]; [lightReset] with
    [hasData = false] changes none of them either, keeps [startTime], and
    zeroes [goodFrames], [totalFrames] and [showFrames], leaving the
    snapshot as it was. *)
Theorem update_and_lightReset_keep_power_sums :
  forall (t : Z) (st : Statistics),
    (milliampsSum (update t st) = milliampsSum st
     /\ underpowerDesiredMilliampsSum (update t st)
        = underpowerDesiredMilliampsSum st
     /\ underpowerFramesCount (update t st) = underpowerFramesCount st
     /\ framesCount (update t st) = framesCount st
     /\ underpowerPercentSum (update t st) = underpowerPercentSum st
     /\ powerPercentSum (update t st) = powerPercentSum st)
    /\ (lightReset t false st
        = (st |> set_goodFrames 0 |> set_totalFrames 0 |> set_showFrames 0)
        /\ startTime (lightReset t false st) = startTime st
        /\ milliampsSum (lightReset t false st) = milliampsSum st
        /\ underpowerDesiredMilliampsSum (lightReset t false st)
           = underpowerDesiredMilliampsSum st
        /\ underpowerFramesCount (lightReset t false st)
           = underpowerFramesCount st
        /\ framesCount (lightReset t false st) = framesCount st
        /\ underpowerPercentSum (lightReset t false st)
           = underpowerPercentSum st
        /\ powerPercentSum (lightReset t false st) = powerPercentSum st
        /\ finalGoodFrames (lightReset t false st) = finalGoodFrames st
        /\ finalShowFrames (lightReset t false st) = finalShowFrames st
        /\ finalTotalFrames (lightReset t false st) = finalTotalFrames st
        /\ goodFrames (lightReset t false st) = 0
        /\ totalFrames (lightReset t false st) = 0
        /\ showFrames (lightReset t false st) = 0).
Proof.
  intros t st. split.
  - unfold update. destruct (0 <? totalFrames st); repeat split.
  - repeat split.
Qed.

(** ** C9: the average of equal currents *)

Section EqualCurrents.

Variable m : Z.

Definition draws (s : PowerSample) : Prop := milliamps s = m.

Lemma recordAll_milliampsSum (samples : list PowerSample) :
  Forall draws samples ->
  forall st : Statistics,
    UInt.fits 64 (milliampsSum st) ->
    milliampsSum (recordAll samples st)
    = UInt.wrap64 (milliampsSum st + Z.of_nat (length samples) * m).
Proof.
  induction 1 as [|s samples Hs _ IH]; intros st Hfit.
  - simpl. rewrite Z.add_0_r. unfold UInt.wrap64. now rewrite wrap_small.
  - rewrite recordAll_cons, IH.
    + unfold record. rewrite updatePowerStats_milliampsSum, Hs, wrap64_add_l.
      f_equal. simpl length. lia.
    + unfold record. rewrite updatePowerStats_milliampsSum.
      apply wrap64_fits.
Qed.

Lemma repeat_draws (s : PowerSample) (n : nat) :
  draws s -> Forall draws (repeat s n).
Proof.
  intros Hs. apply Forall_forall. intros x Hx.
  apply repeat_spec in Hx. now subst x.
Qed.

(** The sum and the count that [print] divides, after samples that all
    draw [m], from a reset state. *)
Lemma recordAll_equal_currents (samples : list PowerSample)
    (currentTime : Z) (st : Statistics) :
  Forall draws samples ->
  milliampsAverage (recordAll samples (reset currentTime st))
  = milliampsPerFrame
      (UInt.wrap64 (Z.of_nat (length samples) * m))
      (UInt.wrap64 (Z.of_nat (length samples))).
Proof.
  intros Hall.
  assert (Hfit : UInt.fits 64 0) by (unfold UInt.fits; lia).
  pose proof (recordAll_milliampsSum samples Hall
                (reset currentTime st) Hfit) as Em.
  destruct (recordAll_counts samples (reset currentTime st) Hfit Hfit)
    as [Ef _].
  unfold milliampsAverage. rewrite Em, Ef. reflexivity.
Qed.

End EqualCurrents.

(** Conversions and division in binary64, on operands that fit the
    53-bit mantissa. *)
Section Binary64.

(** Linear arithmetic with the powers of two taken as unknowns. *)
Ltac pow_lia :=
  repeat match goal with
         | H : context [2 ^ ?e] |- _ =>
             let x := fresh "pw" in
             set (x := 2 ^ e) in *; clearbody x
         | |- context [2 ^ ?e] =>
             let x := fresh "pw" in
             set (x := 2 ^ e) in *; clearbody x
         end;
  lia.

Lemma digits2_pos_bounds (p : positive) :
  2 ^ (Zpos (digits2_pos p) - 1) <= Zpos p < 2 ^ Zpos (digits2_pos p).
Proof.
  induction p as [p IH|p IH|]; simpl digits2_pos.
  - rewrite Pos2Z.inj_succ.
    replace (Z.succ (Zpos (digits2_pos p)) - 1) with (Z.succ (Zpos (digits2_pos p) - 1)) by lia.
    rewrite !Z.pow_succ_r by lia. pow_lia.
  - rewrite Pos2Z.inj_succ.
    replace (Z.succ (Zpos (digits2_pos p)) - 1) with (Z.succ (Zpos (digits2_pos p) - 1)) by lia.
    rewrite !Z.pow_succ_r by lia. pow_lia.
  - simpl. lia.
Qed.

Lemma digits2_pos_unique (p : positive) (k : Z) :
  2 ^ (k - 1) <= Zpos p < 2 ^ k -> Zpos (digits2_pos p) = k.
Proof.
  intros [Hlo Hhi]. pose proof (digits2_pos_bounds p) as [Blo Bhi].
  destruct (Z.lt_trichotomy (Zpos (digits2_pos p)) k) as [Hlt|[Heq|Hgt]]; [|exact Heq|].
  - assert (2 ^ Zpos (digits2_pos p) <= 2 ^ (k - 1)) by (apply Z.pow_le_mono_r; lia). lia.
  - assert (0 <= k \/ k < 0) as [Hk|Hk] by lia.
    + assert (2 ^ k <= 2 ^ (Zpos (digits2_pos p) - 1)) by (apply Z.pow_le_mono_r; lia). lia.
    + rewrite (Z.pow_neg_r 2 k) in Hhi by lia. lia.
Qed.

Lemma iter_xO_value (a k : positive) :
  Zpos (Pos.iter xO a k) = Zpos a * 2 ^ Zpos k.
Proof.
  induction k as [|k IH] using Pos.peano_ind.
  - simpl. lia.
  - rewrite Pos.iter_succ, Pos2Z.inj_succ, Z.pow_succ_r by lia.
    change (Zpos (Pos.iter xO a k)~0) with (2 * Zpos (Pos.iter xO a k)).
    rewrite IH. ring.
Qed.

Lemma fexp64_normal (e : Z) : -1021 <= e -> fexp 53 1024 e = e - 53.
Proof. unfold fexp, emin. lia. Qed.

Lemma digits2_pos_le_53 (p : positive) :
  Zpos p < 2 ^ 53 -> 1 <= Zpos (digits2_pos p) <= 53.
Proof.
  intros H. pose proof (digits2_pos_bounds p) as [Hlo _].
  split; [lia|].
  assert (Hlt : 2 ^ (Zpos (digits2_pos p) - 1) < 2 ^ 53) by lia.
  apply Z.pow_lt_mono_r_iff in Hlt; lia.
Qed.

(** A 53-bit mantissa with an exponent in range is already rounded. *)
Lemma binary_round_aux_canonical (s : bool) (m : positive) (e : Z) :
  Zpos (digits2_pos m) = 53 ->
  -1074 <= e <= 971 ->
  binary_round_aux 53 1024 s (Zpos m) e loc_Exact = S754_finite s m e.
Proof.
  intros Hd He.
  assert (Hshift : fexp 53 1024 (Zdigits2 (Zpos m) + e) - e = 0).
  { cbn [Zdigits2]. rewrite Hd. unfold fexp, emin. lia. }
  unfold binary_round_aux, shr_fexp. rewrite Hshift.
  cbn [shr shr_record_of_loc shr_m loc_of_shr_record round_nearest_even].
  rewrite Hshift. cbn [shr shr_m].
  replace (e <=? 1024 - 53) with true by (symmetry; apply Z.leb_le; lia).
  reflexivity.
Qed.

(** A 54-bit even mantissa loses its last bit, exactly. *)
Lemma binary_round_aux_even (s : bool) (m : positive) (e : Z) :
  Zpos (digits2_pos m) = 53 ->
  -1074 <= e + 1 <= 971 ->
  binary_round_aux 53 1024 s (Zpos m~0) e loc_Exact
  = S754_finite s m (e + 1).
Proof.
  intros Hd He.
  assert (Hshift1 : fexp 53 1024 (Zdigits2 (Zpos m~0) + e) - e = 1).
  { cbn [Zdigits2 digits2_pos]. rewrite Pos2Z.inj_succ, Hd.
    unfold fexp, emin. lia. }
  assert (Hshift2 : fexp 53 1024 (Zdigits2 (Zpos m) + (e + 1)) - (e + 1) = 0).
  { cbn [Zdigits2]. rewrite Hd. unfold fexp, emin. lia. }
  unfold binary_round_aux, shr_fexp. rewrite Hshift1.
  cbn [shr iter_pos shr_1 shr_record_of_loc shr_m loc_of_shr_record
       round_nearest_even orb].
  rewrite Hshift2. cbn [shr shr_m].
  replace (e + 1 <=? 1024 - 53) with true by (symmetry; apply Z.leb_le; lia).
  reflexivity.
Qed.

(** An integer below 2^53 converts to [double] exactly: its mantissa is
    shifted left to 53 bits. *)
Lemma double_of_int_exact (p : positive) :
  Zpos p < 2 ^ 53 ->
  exists mz : positive,
    Float.double_of_int (Zpos p)
    = S754_finite false mz (Zpos (digits2_pos p) - 53)
    /\ Zpos mz = Zpos p * 2 ^ (53 - Zpos (digits2_pos p))
    /\ Zpos (digits2_pos mz) = 53.
Proof.
  intros Hp. pose proof (digits2_pos_le_53 p Hp) as Hd.
  pose proof (digits2_pos_bounds p) as Hb.
  unfold Float.double_of_int, binary_normalize, binary_round.
  change Float.prec64 with 53. change Float.emax64 with 1024.
  rewrite fexp64_normal by lia. unfold shl_align.
  remember (Zpos (digits2_pos p)) as dp eqn:Edp.
  destruct (dp + 0 - 53 - 0) as [|k|k] eqn:Ek; try lia.
  - assert (dp = 53) by lia. subst dp.
    assert (Hd53 : Zpos (digits2_pos p) = 53) by lia.
    exists p. rewrite binary_round_aux_canonical by lia.
    rewrite Hd53. repeat split; lia.
  - assert (Hk : Zpos k = 53 - dp) by lia.
    assert (Hv : Zpos (Pos.iter xO p k) = Zpos p * 2 ^ (53 - dp)).
    { rewrite iter_xO_value, Hk. reflexivity. }
    assert (Hdig : Zpos (digits2_pos (Pos.iter xO p k)) = 53).
    { apply digits2_pos_unique. rewrite Hv.
      assert (E52 : 2 ^ (53 - 1) = 2 ^ (dp - 1) * 2 ^ (53 - dp)).
      { rewrite <- Z.pow_add_r by lia. f_equal. lia. }
      assert (E53 : 2 ^ 53 = 2 ^ dp * 2 ^ (53 - dp)).
      { rewrite <- Z.pow_add_r by lia. f_equal. lia. }
      rewrite E52, E53.
      assert (0 < 2 ^ (53 - dp)) by (apply Z.pow_pos_nonneg; lia).
      split; [apply Z.mul_le_mono_nonneg_r|apply Z.mul_lt_mono_pos_r]; lia. }
    exists (Pos.iter xO p k).
    rewrite binary_round_aux_canonical by lia.
    repeat split; try assumption. f_equal. lia.
Qed.

Lemma div_eucl_exact (q b : Z) : 0 < b -> Z.div_eucl (q * b) b = (q, 0).
Proof.
  intros Hb.
  assert (E : Z.div_eucl (q * b) b = ((q * b) / b, (q * b) mod b)).
  { unfold Z.div, Z.modulo. now destruct (Z.div_eucl (q * b) b). }
  rewrite E, Z.div_mul, Z.mod_mul by lia. reflexivity.
Qed.

Lemma new_location_exact (steps : Z) : new_location steps 0 = loc_Exact.
Proof.
  unfold new_location, new_location_even, new_location_odd.
  now destruct (Z.even steps).
Qed.

(** The quotient of two normal [double]s whose mantissas divide exactly is
    the rounding of the exact quotient. *)
Lemma SFdiv_exact_quotient (mx my : positive) (ex ey q : Z) :
  Zpos (digits2_pos mx) = 53 ->
  Zpos (digits2_pos my) = 53 ->
  -1021 <= ex - ey ->
  Zpos mx * 2 ^ 53 = q * Zpos my ->
  SFdiv 53 1024 (S754_finite false mx ex) (S754_finite false my ey)
  = binary_round_aux 53 1024 false q (ex - ey - 53) loc_Exact.
Proof.
  intros Hdx Hdy He Hq.
  unfold SFdiv, SFdiv_core_binary. cbn [Zdigits2 xorb]. rewrite Hdx, Hdy.
  replace (53 + ex - (53 + ey)) with (ex - ey) by lia.
  rewrite fexp64_normal by lia.
  replace (Z.min (ex - ey - 53) (ex - ey)) with (ex - ey - 53) by lia.
  replace (ex - ey - (ex - ey - 53)) with 53 by lia.
  rewrite Z.shiftl_mul_pow2 by lia.
  rewrite Hq, div_eucl_exact by lia.
  rewrite new_location_exact. reflexivity.
Qed.

(** Rounding [m * 2^j * 2^(-j)], a mantissa of 53 or 54 bits, loses
    nothing: the truncation of the result is [m]. *)
Lemma truncate_round_exact (q m j : Z) :
  0 < m ->
  1 <= j <= 53 ->
  q = m * 2 ^ j ->
  2 ^ 52 <= q < 2 ^ 54 ->
  Float.truncate (binary_round_aux 53 1024 false q (- j) loc_Exact) = Some m.
Proof.
  intros Hm Hj Hq Hrange.
  assert (Hpow : 0 < 2 ^ j) by (apply Z.pow_pos_nonneg; lia).
  destruct q as [|pq|pq]; try lia.
  destruct (Z_lt_le_dec (Zpos pq) (2 ^ 53)) as [Hsmall|Hbig].
  - assert (Hd : Zpos (digits2_pos pq) = 53).
    { apply digits2_pos_unique. change (53 - 1) with 52. lia. }
    rewrite binary_round_aux_canonical by lia.
    cbn [Float.truncate cond_Zopp]. f_equal.
    rewrite Z.shiftl_div_pow2, Z.opp_involutive, Hq by lia.
    apply Z.div_mul. lia.
  - assert (Ej : 2 ^ j = 2 * 2 ^ (j - 1)).
    { rewrite <- Z.pow_succ_r by lia. f_equal. lia. }
    assert (Hpow' : 0 < 2 ^ (j - 1)) by (apply Z.pow_pos_nonneg; lia).
    rewrite Ej in Hq.
    destruct pq as [r|r|].
    + exfalso. lia.
    + assert (Hr : Zpos r = m * 2 ^ (j - 1)) by lia.
      assert (Hd : Zpos (digits2_pos r) = 53).
      { apply digits2_pos_unique. change (53 - 1) with 52. lia. }
      rewrite binary_round_aux_even by lia.
      cbn [Float.truncate cond_Zopp]. f_equal.
      rewrite Z.shiftl_div_pow2 by lia.
      replace (- (- j + 1)) with (j - 1) by lia.
      rewrite Hr. apply Z.div_mul. lia.
    + exfalso. lia.
Qed.

(** The average of [n] equal values [m] is [m] as long as the sum [n * m]
    is below 2^53, where the conversion to [double] is exact. *)
Lemma milliampsPerFrame_exact (n m : Z) :
  1 <= n < 2 ^ 53 ->
  0 <= m < 2 ^ 32 ->
  n * m < 2 ^ 53 ->
  milliampsPerFrame (n * m) n = Ok m.
Proof.
  intros Hn Hm Hsum.
  destruct n as [|pn|pn]; try lia.
  destruct (double_of_int_exact pn) as (my & Ey & Vy & Dy); [lia|].
  pose proof (digits2_pos_le_53 pn ltac:(lia)) as Hdn.
  pose proof (digits2_pos_bounds pn) as Bn.
  unfold milliampsPerFrame.
  destruct (Z.eq_dec m 0) as [->|Hm0].
  - rewrite Z.mul_0_r, Ey. reflexivity.
  - assert (Hpos : 0 < Zpos pn * m) by (apply Z.mul_pos_pos; lia).
    destruct (Zpos pn * m) as [|pa|pa] eqn:Ea; try lia.
    destruct (double_of_int_exact pa) as (mx & Ex & Vx & Dx); [lia|].
    pose proof (digits2_pos_le_53 pa ltac:(lia)) as Hda.
    pose proof (digits2_pos_bounds pa) as Ba.
    remember (Zpos (digits2_pos pn)) as dn eqn:Edn.
    remember (Zpos (digits2_pos pa)) as da eqn:Eda.
    assert (Hle : dn <= da).
    { assert (Hlt : 2 ^ (dn - 1) < 2 ^ da).
      { assert (Zpos pn * 1 <= Zpos pn * m)
          by (apply Z.mul_le_mono_nonneg_l; lia).
        lia. }
      apply Z.pow_lt_mono_r_iff in Hlt; lia. }
    set (j := 53 - da + dn).
    assert (Ej : 2 ^ j = 2 ^ (53 - da) * 2 ^ dn).
    { unfold j. rewrite <- Z.pow_add_r by lia. reflexivity. }
    assert (E53 : 2 ^ 53 = 2 ^ (53 - dn) * 2 ^ dn).
    { rewrite <- Z.pow_add_r by lia. f_equal. lia. }
    assert (E52 : 2 ^ 52 = 2 ^ (53 - da) * 2 ^ (da - 1)).
    { rewrite <- Z.pow_add_r by lia. f_equal. lia. }
    assert (E53' : 2 ^ 53 = 2 ^ (53 - da) * 2 ^ da).
    { rewrite <- Z.pow_add_r by lia. f_equal. lia. }
    assert (Edn2 : 2 ^ dn = 2 * 2 ^ (dn - 1)).
    { rewrite <- Z.pow_succ_r by lia. f_equal. lia. }
    assert (E54 : 2 ^ 54 = 2 * 2 ^ 53) by reflexivity.
    assert (P1 : 0 < 2 ^ (53 - da)) by (apply Z.pow_pos_nonneg; lia).
    assert (P2 : 0 < 2 ^ (53 - dn)) by (apply Z.pow_pos_nonneg; lia).
    rewrite Ex, Ey.
    rewrite (SFdiv_exact_quotient mx my _ _ (m * 2 ^ j)); try assumption;
      try lia.
    + replace (da - 53 - (dn - 53) - 53) with (- j) by (unfold j; lia).
      unfold Float.to_uint32.
      rewrite (truncate_round_exact (m * 2 ^ j) m j);
        try reflexivity; try (unfold j; lia).
      * unfold UInt.fitsb.
        replace (0 <=? m) with true by (symmetry; apply Z.leb_le; lia).
        replace (m <? 2 ^ 32) with true by (symmetry; apply Z.ltb_lt; lia).
        reflexivity.
      * rewrite Ej.
        assert (L1 : 2 ^ (da - 1) < m * 2 ^ dn).
        { assert (Zpos pn * m < 2 ^ dn * m)
            by (apply Z.mul_lt_mono_pos_r; lia).
          lia. }
        assert (L2 : m * 2 ^ (dn - 1) < 2 ^ da).
        { assert (m * 2 ^ (dn - 1) <= m * Zpos pn)
            by (apply Z.mul_le_mono_nonneg_l; lia).
          lia. }
        split.
        -- rewrite E52.
           assert (2 ^ (53 - da) * 2 ^ (da - 1)
                   < 2 ^ (53 - da) * (m * 2 ^ dn))
             by (apply Z.mul_lt_mono_pos_l; lia).
           lia.
        -- rewrite E54, E53', Edn2.
           assert (2 ^ (53 - da) * (m * 2 ^ (dn - 1))
                   < 2 ^ (53 - da) * 2 ^ da)
             by (apply Z.mul_lt_mono_pos_l; lia).
           lia.
    + rewrite Vx, Vy, Ej, E53. rewrite <- Ea. ring.
Qed.

End Binary64.

(** C9 as stated fails once the sum no longer fits the 53-bit mantissa of a
    [double]: after 2097155 calls with [milliamps = 4294967295] the sum
    2097155 * 4294967295 is rounded on conversion and the average comes out
    as 4294967294. *)
Lemma milliamps_average_drifts :
  let samples := repeat Scenario.fullScale (N.to_nat 2097155) in
  let st := recordAll samples (reset 0 initial) in
  Forall (draws 4294967295) samples
  /\ milliampsAverage st = Ok 4294967294
  /\ milliampsAverage st <> Ok 4294967295.
Proof.
  intros samples st.
  assert (Hall : Forall (draws 4294967295) samples)
    by (apply repeat_draws; reflexivity).
  assert (E : milliampsAverage st = Ok 4294967294).
  { subst st. rewrite (recordAll_equal_currents 4294967295) by exact Hall.
    subst samples. rewrite repeat_length, N_nat_Z.
    vm_compute. reflexivity. }
  split; [exact Hall|]. split; [exact E|]. rewrite E. discriminate.
Qed.

(** C9, amended. After one or more calls of [updatePowerStats] from a reset
    state, all with the same [milliamps = m] (the other arguments are free),
    the [milliampsAverage] that [print] computes is [m] exactly, provided
    the number of calls and the sum of the currents are below 2^53. *)
Theorem milliamps_average_exact_below_2_53 :
  forall (samples : list PowerSample) (m : Z) (currentTime curTime : Z)
         (taskHandle1 taskHandle2 : TaskHandle_t) (freeHeap : Z)
         (st : Statistics),
    Forall (draws m) samples ->
    1 <= Z.of_nat (length samples) < 2 ^ 53 ->
    UInt.fits 32 m ->
    Z.of_nat (length samples) * m < 2 ^ 53 ->
    let after := recordAll samples (reset currentTime st) in
    let printed := print curTime taskHandle1 taskHandle2 freeHeap after in
    milliampsAverage after = Ok m
    /\ milliampsAverage (fst printed) = Ok m
    /\ forall rep : Report,
         snd printed = Ok rep -> report_milliampsAverage rep = m.
Proof.
  intros samples m currentTime curTime taskHandle1 taskHandle2 freeHeap st
    Hall Hn Hm Hsum after printed.
  assert (E : milliampsAverage after = Ok m).
  { subst after. rewrite (recordAll_equal_currents m) by exact Hall.
    unfold UInt.fits in Hm.
    assert (0 <= Z.of_nat (length samples) * m)
      by (apply Z.mul_nonneg_nonneg; lia).
    unfold UInt.wrap64. rewrite !wrap_small by (unfold UInt.fits; lia).
    apply milliampsPerFrame_exact; lia. }
  split; [exact E|]. split; [exact E|].
  intros rep Hrep. subst printed. unfold print in Hrep. cbn [snd] in Hrep.
  unfold render in Hrep.
  change (milliampsAverage _) with (milliampsAverage after) in Hrep.
  rewrite E in Hrep. cbn [bind] in Hrep.
  destruct (underpowerRequestedMilliampsAverage _) as [urma|] in Hrep;
    cbn [bind] in Hrep; [|discriminate Hrep].
  destruct (udiv _ _) as [share|] in Hrep; cbn [bind] in Hrep;
    [|discriminate Hrep].
  destruct (udiv _ _) as [requested|] in Hrep; cbn [bind] in Hrep;
    [|discriminate Hrep].
  injection Hrep as <-. reflexivity.
Qed.

Lemma milliamps_average_exact_witness :
  milliampsAverage (recordAll Scenario.steadyDraw (reset 7 initial)) = Ok 1500.
Proof.
  assert (H1 : Forall (draws 1500) Scenario.steadyDraw)
    by (repeat constructor).
  assert (H2 : 1 <= Z.of_nat (length Scenario.steadyDraw) < 2 ^ 53)
    by (simpl; lia).
  assert (H3 : UInt.fits 32 1500) by (unfold UInt.fits; lia).
  assert (H4 : Z.of_nat (length Scenario.steadyDraw) * 1500 < 2 ^ 53)
    by (simpl; lia).
  exact (proj1 (milliamps_average_exact_below_2_53 Scenario.steadyDraw 1500
                  7 9 None None 0 initial H1 H2 H3 H4)).
Defined.

(** ** C10: nothing ties the shown frames to the received ones *)

(** C10. [update] copies [showFrames] into [finalShowFrames] unclamped, so
    a period with more [increaseShow] than [increaseTotal] calls ends with
    [finalShowFrames > finalTotalFrames]: one [increaseTotal], two
    [increaseShow], then [update]. *)
Theorem shown_frames_can_exceed_total :
  (forall (t : Z) (st : Statistics),
     0 < totalFrames st -> finalShowFrames (update t st) = showFrames st)
  /\ exists (calls : list call),
       forallb is_frame_event calls = true
       /\ count is_increaseTotal calls < count is_increaseShow calls
       /\ forall t : Z,
            finalShowFrames (run (calls ++ [Update t]) initial)
            > finalTotalFrames (run (calls ++ [Update t]) initial).
Proof.
  split.
  - intros t st H. now destruct (update_snapshot t st H) as (E & _).
  - exists [IncreaseTotal; IncreaseShow; IncreaseShow].
    split; [reflexivity|]. split; [reflexivity|].
    intros t. vm_compute. reflexivity.
Qed.

Lemma shown_frames_can_exceed_total_witness :
  finalShowFrames
    (update 3 (increaseShow (increaseShow (increaseTotal initial)))) = 2.
Proof.
  rewrite (proj1 shown_frames_can_exceed_total).
  - reflexivity.
  - vm_compute. reflexivity.
Defined.

(** * Further properties of the member functions *)

(** ** What a formatted report says about the state *)

Section Reports.

Variables (curTime : Z) (taskHandle1 taskHandle2 : TaskHandle_t)
          (freeHeap : Z).

(** [print] assigns only [startTime] and the three period counters. *)
Lemma print_state (st : Statistics) :
  fst (print curTime taskHandle1 taskHandle2 freeHeap st)
  = lightReset curTime true st.
Proof. reflexivity. Qed.

(** The report of [print], read backwards: each value it holds, in terms
    of the state [print] was called on. *)
Lemma print_report_inv (st : Statistics) (rep : Report) :
  snd (print curTime taskHandle1 taskHandle2 freeHeap st) = Ok rep ->
  exists ma urma share requested : Z,
    milliampsAverage st = Ok ma
    /\ underpowerRequestedMilliampsAverage st = Ok urma
    /\ udiv (UInt.wrap64 (underpowerFramesCount st * 100)) (framesCount st)
       = Ok share
    /\ udiv (UInt.wrap32 (urma * 100)) ma = Ok requested
    /\ rep = {| report_finalShowFrames := finalShowFrames st;
                report_finalTotalFrames := finalTotalFrames st;
                report_finalGoodFrames := finalGoodFrames st;
                report_incomplete := finalTotalFrames st - finalGoodFrames st;
                report_mem1 := stackHighWaterMark taskHandle1;
                report_mem2 := stackHighWaterMark taskHandle2;
                report_heap := freeHeap;
                report_framesCount := framesCount st;
                report_underpowerFramesCount := underpowerFramesCount st;
                report_underpowerFramesShare := share;
                report_milliampsAverage := ma;
                report_underpowerRequestedMilliampsAverage := urma;
                report_requestedShare := requested;
                report_powerPercentAverage := powerPercentAverage st;
                report_underpowerPercentAverage :=
                  underpowerPercentAverage st |}.
Proof.
  unfold print. cbn [snd]. unfold render.
  change (milliampsAverage _) with (milliampsAverage st).
  change (underpowerRequestedMilliampsAverage _)
    with (underpowerRequestedMilliampsAverage st).
  destruct (milliampsAverage st) as [ma|]; cbn [bind]; [|discriminate].
  destruct (underpowerRequestedMilliampsAverage st) as [urma|]; cbn [bind];
    [|discriminate].
  destruct (udiv (UInt.wrap64 _) _) as [share|] eqn:Eshare; cbn [bind];
    [|discriminate].
  destruct (udiv (UInt.wrap32 _) _) as [requested|] eqn:Ereq; cbn [bind];
    [|discriminate].
  intros H. injection H as <-.
  exists ma, urma, share, requested. repeat split; assumption.
Qed.

Lemma udiv_Ok (a b q : Z) : udiv a b = Ok q -> b <> 0 /\ q = a / b.
Proof.
  unfold udiv. destruct (Z.eqb_spec b 0); [discriminate|].
  intros H. injection H as <-. now split.
Qed.

(** A quotient by zero has no [uint32_t] value, whatever the dividend. *)
Lemma milliampsPerFrame_zero_count (sum : Z) :
  milliampsPerFrame sum 0 = Undefined ConversionOutOfRange.
Proof.
  unfold milliampsPerFrame.
  change (Float.double_of_int 0) with (S754_zero false).
  destruct (Float.double_of_int sum) as [s|s| |s m e]; reflexivity.
Qed.

(** X1. [print] formats a report only when some frame was processed, some
    frame was current-limited, and the average current is not zero: with
    [framesCount = 0] or [underpowerFramesCount = 0] a conversion of NaN or
    infinity to [uint32_t] is undefined, and with [milliampsAverage = 0]
    the division by it is. *)
Theorem report_needs_limited_frames_and_current :
  forall (st : Statistics) (rep : Report),
    snd (print curTime taskHandle1 taskHandle2 freeHeap st) = Ok rep ->
    framesCount st <> 0
    /\ underpowerFramesCount st <> 0
    /\ report_milliampsAverage rep <> 0.
Proof.
  intros st rep H.
  destruct (print_report_inv st rep H)
    as (ma & urma & share & requested & Ema & Eurma & Eshare & Ereq & ->).
  cbn [report_milliampsAverage].
  split; [|split].
  - intros E0. unfold milliampsAverage in Ema.
    rewrite E0, milliampsPerFrame_zero_count in Ema. discriminate Ema.
  - intros E0. unfold underpowerRequestedMilliampsAverage in Eurma.
    rewrite E0, milliampsPerFrame_zero_count in Eurma. discriminate Eurma.
  - now apply udiv_Ok in Ereq.
Qed.

End Reports.

Lemma report_needs_limited_frames_witness :
  exists rep : Report,
    snd (print 7 None None 0 Scenario.afterOneFrame) = Ok rep
    /\ framesCount Scenario.afterOneFrame <> 0
    /\ underpowerFramesCount Scenario.afterOneFrame <> 0
    /\ report_milliampsAverage rep <> 0.
Proof.
  eexists. split.
  - vm_compute. reflexivity.
  - apply (report_needs_limited_frames_and_current 7 None None 0
             Scenario.afterOneFrame).
    vm_compute. reflexivity.
Defined.

(** ** The frame counters and the snapshot *)

(** The six 16-bit members hold 16-bit values. *)
Definition frame_fields_fit (st : Statistics) : Prop :=
  UInt.fits 16 (goodFrames st)
  /\ UInt.fits 16 (showFrames st)
  /\ UInt.fits 16 (totalFrames st)
  /\ UInt.fits 16 (finalGoodFrames st)
  /\ UInt.fits 16 (finalShowFrames st)
  /\ UInt.fits 16 (finalTotalFrames st).

Lemma fits_16_0 : UInt.fits 16 0.
Proof. unfold UInt.fits. simpl. lia. Qed.

Ltac split_fields :=
  repeat match goal with |- _ /\ _ => split end.

Lemma exec_frame_fields_fit (c : call) (st : Statistics) :
  frame_fields_fit st -> frame_fields_fit (exec c st).
Proof.
  unfold frame_fields_fit. intros (Hg & Hs & Ht & Hfg & Hfs & Hft).
  destruct c as [| | |p u m d|t|t h1 h2 heap|t|t hasData]; cbn [exec].
  - split_fields; try assumption; apply wrap16_fits.
  - split_fields; try assumption; apply wrap16_fits.
  - split_fields; try assumption; apply wrap16_fits.
  - destruct (updatePowerStats_period p u m d st)
      as (_ & E2 & E3 & E4 & E5 & E6 & E7).
    rewrite E2, E3, E4, E5, E6, E7. split_fields; assumption.
  - unfold update. destruct (0 <? totalFrames st);
      split_fields; try assumption; try apply fits_16_0.
    cbn. unfold UInt.fits in *. lia.
  - split_fields; try assumption; apply fits_16_0.
  - split_fields; apply fits_16_0.
  - destruct hasData; split_fields; try assumption; apply fits_16_0.
Qed.

Lemma run_frame_fields_fit (calls : list call) (st : Statistics) :
  frame_fields_fit st -> frame_fields_fit (run calls st).
Proof.
  revert st. induction calls as [|c calls IH]; intros st H; [exact H|].
  apply IH. now apply exec_frame_fields_fit.
Qed.

Lemma initial_frame_fields_fit : frame_fields_fit initial.
Proof. unfold frame_fields_fit. split_fields; apply fits_16_0. Qed.

(** X2. Whatever calls were made since the object was created, the
    "incompl." value of a report, [finalTotalFrames - finalGoodFrames], is
    never negative (it is formatted with [%u]) and never above the number
    of received frames, which is a 16-bit value. *)
Theorem report_incomplete_in_range :
  forall (calls : list call) (curTime : Z)
         (taskHandle1 taskHandle2 : TaskHandle_t) (freeHeap : Z)
         (rep : Report),
    snd (print curTime taskHandle1 taskHandle2 freeHeap (run calls initial))
    = Ok rep ->
    0 <= report_incomplete rep <= report_finalTotalFrames rep
    /\ report_finalGoodFrames rep + report_incomplete rep
       = report_finalTotalFrames rep
    /\ report_finalTotalFrames rep < 2 ^ 16.
Proof.
  intros calls curTime taskHandle1 taskHandle2 freeHeap rep H.
  destruct (print_report_inv _ _ _ _ _ _ H) as (? & ? & ? & ? & _ & _ & _ & _ & ->).
  cbn [report_incomplete report_finalTotalFrames report_finalGoodFrames].
  pose proof (snapshot_ordered_reachable calls) as Hord.
  destruct (run_frame_fields_fit calls initial initial_frame_fields_fit)
    as (_ & _ & _ & Hfg & _ & Hft).
  unfold snapshot_ordered in Hord. unfold UInt.fits in *. lia.
Qed.

Lemma report_incomplete_in_range_witness :
  exists rep : Report,
    snd (print 9 None None 0
           (run [IncreaseTotal; IncreaseTotal; IncreaseGood; Update 5;
                 UpdatePowerStats Scenario.half Scenario.one 1000 2000]
              initial)) = Ok rep
    /\ 0 <= report_incomplete rep <= report_finalTotalFrames rep
    /\ report_incomplete rep = 1.
Proof.
  eexists. split; [vm_compute; reflexivity|]. split.
  - apply (report_incomplete_in_range
             [IncreaseTotal; IncreaseTotal; IncreaseGood; Update 5;
              UpdatePowerStats Scenario.half Scenario.one 1000 2000]
             9 None None 0).
    vm_compute. reflexivity.
  - reflexivity.
Defined.

(** X3. A second [update] with no frame in between replaces the first one:
    the snapshot is taken once, and only the start time moves. *)
Theorem update_absorbs_update :
  forall (t1 t2 : Z) (st : Statistics),
    update t2 (update t1 st) = update t2 st
    /\ update t2 (update t1 st) = set_startTime t2 (update t1 st).
Proof.
  intros t1 t2 st. unfold update.
  destruct (0 <? totalFrames st); split; reflexivity.
Qed.








(** The three members of the snapshot. *)
Definition snapshot (st : Statistics) : Z * Z * Z :=
  (finalShowFrames st, finalGoodFrames st, finalTotalFrames st).

Lemma run_frame_events_keep_snapshot (events : list call) (st : Statistics) :
  forallb is_frame_event events = true ->
  snapshot (run events st) = snapshot st.
Proof.
  intros Hev. unfold snapshot.
  destruct (run_frame_events_snapshot events Hev st) as (Eg & Es & Et).
  now rewrite Eg, Es, Et.
Qed.

Lemma update_empty_period_snapshot (t : Z) (st : Statistics) :
  totalFrames st = 0 -> snapshot (update t st) = snapshot st.
Proof. intros H. unfold update. rewrite H. reflexivity. Qed.

(** X5. The frame counter is 16 bits wide and [update] takes a period with
    [totalFrames = 0] for an empty one: a period in which the number of
    [increaseTotal] calls is a multiple of 65536 (65536 frames, say) leaves
    the previous snapshot in place, as if no frame had arrived. *)
Theorem full_counter_period_is_dropped :
  forall (events : list call) (t0 t : Z) (st : Statistics),
    forallb is_frame_event events = true ->
    (count is_increaseTotal events) mod 65536 = 0 ->
    totalFrames (run events (update t0 st)) = 0
    /\ snapshot (update t (run events (update t0 st)))
       = snapshot (update t0 st).
Proof.
  intros events t0 t st Hev Hmod.
  destruct (update_period_counters t0 st) as (G0 & T0 & S0 & _).
  destruct (run_frame_events_counters events Hev (update t0 st))
    as (Et & _ & _); rewrite ?G0, ?T0, ?S0; try apply fits_16_0.
  rewrite T0, Z.add_0_l in Et.
  assert (E0 : totalFrames (run events (update t0 st)) = 0).
  { rewrite Et. exact Hmod. }
  split; [exact E0|].
  rewrite update_empty_period_snapshot by exact E0.
  now apply run_frame_events_keep_snapshot.
Qed.

Lemma full_counter_period_is_dropped_witness :
  let events := repeat IncreaseTotal (N.to_nat 65536) in
  snapshot (update 9 (run events (update 5 (increaseTotal initial))))
  = (0, 0, 1).
Proof.
  intros events.
  assert (H1 : forallb is_frame_event events = true)
    by (vm_compute; reflexivity).
  assert (H2 : (count is_increaseTotal events) mod 65536 = 0)
    by (vm_compute; reflexivity).
  exact (proj2 (full_counter_period_is_dropped events 5 9
                  (increaseTotal initial) H1 H2)).
Defined.

(** [reset] assigns every member: the state it leaves does not depend
    on the state it finds, and is the freshly constructed object with
    [startTime] set. *)
Lemma reset_forgets_everything :
  forall (currentTime : Z) (calls : list call) (st : Statistics),
    reset currentTime (run calls st) = set_startTime currentTime initial
    /\ reset currentTime st = reset currentTime initial.
Proof. intros currentTime calls st. split; reflexivity. Qed.

(** X6. [print] and [lightReset] zero the period counters without taking
    a snapshot: the frames counted since the last [update] never reach the
    snapshot, and the next [update] finds an empty period. *)
Theorem print_and_lightReset_discard_the_period :
  forall (events : list call) (t1 t2 : Z) (hasData : bool)
         (taskHandle1 taskHandle2 : TaskHandle_t) (freeHeap : Z)
         (st : Statistics),
    forallb is_frame_event events = true ->
    snapshot (update t2 (lightReset t1 hasData (run events st))) = snapshot st
    /\ snapshot
         (update t2
            (fst (print t1 taskHandle1 taskHandle2 freeHeap (run events st))))
       = snapshot st.
Proof.
  intros events t1 t2 hasData taskHandle1 taskHandle2 freeHeap st Hev.
  rewrite print_state.
  rewrite !update_empty_period_snapshot
    by (now destruct hasData || reflexivity).
  split.
  - destruct hasData; now apply run_frame_events_keep_snapshot.
  - now apply run_frame_events_keep_snapshot.
Qed.

Lemma print_and_lightReset_discard_witness :
  snapshot
    (update 8
       (lightReset 6 false
          (run [IncreaseTotal; IncreaseGood; IncreaseShow]
             (update 2 (increaseTotal initial)))))
  = (0, 0, 1).
Proof.
  apply (print_and_lightReset_discard_the_period
           [IncreaseTotal; IncreaseGood; IncreaseShow] 6 8 false None None 0
           (update 2 (increaseTotal initial))).
  reflexivity.
Defined.

(** ** The two halves of the object do not mix *)

(** The members the current limiter feeds, and the members the frame
    pipeline and the scheduler feed. *)
Definition powerView (st : Statistics)
  : Z * Z * Z * Z * spec_float * spec_float :=
  (milliampsSum st, underpowerDesiredMilliampsSum st,
   underpowerFramesCount st, framesCount st,
   underpowerPercentSum st, powerPercentSum st).

Definition frameView (st : Statistics) : Z * Z * Z * Z * Z * Z * Z :=
  (startTime st, goodFrames st, showFrames st, totalFrames st,
   finalGoodFrames st, finalShowFrames st, finalTotalFrames st).

Definition writes_power (c : call) : bool :=
  match c with
  | UpdatePowerStats _ _ _ _ | Reset _ => true
  | _ => false
  end.

Definition writes_frames (c : call) : bool :=
  match c with
  | UpdatePowerStats _ _ _ _ => false
  | _ => true
  end.

Lemma exec_powerView (c : call) (s1 s2 : Statistics) :
  powerView s1 = powerView s2 ->
  powerView (exec c s1)
  = powerView (if writes_power c then exec c s2 else s2).
Proof.
  unfold powerView. intros H. injection H as E1 E2 E3 E4 E5 E6.
  destruct c as [| | |p u m d|t|t h1 h2 heap|t|t hasData];
    cbn [exec writes_power].
  - simpl. congruence.
  - simpl. congruence.
  - simpl. congruence.
  - unfold updatePowerStats. destruct (currentLimited u); simpl; congruence.
  - unfold update.
    destruct (0 <? totalFrames s1); simpl; congruence.
  - simpl. congruence.
  - reflexivity.
  - destruct hasData; simpl; congruence.
Qed.

Lemma exec_frameView (c : call) (s1 s2 : Statistics) :
  frameView s1 = frameView s2 ->
  frameView (exec c s1)
  = frameView (if writes_frames c then exec c s2 else s2).
Proof.
  unfold frameView. intros H. injection H as E1 E2 E3 E4 E5 E6 E7.
  destruct c as [| | |p u m d|t|t h1 h2 heap|t|t hasData];
    cbn [exec writes_frames].
  - simpl. congruence.
  - simpl. congruence.
  - simpl. congruence.
  - destruct (updatePowerStats_period p u m d s1)
      as (P1 & P2 & P3 & P4 & P5 & P6 & P7).
    rewrite P1, P2, P3, P4, P5, P6, P7. congruence.
  - unfold update. rewrite E4.
    destruct (0 <? totalFrames s2); simpl; congruence.
  - simpl. congruence.
  - reflexivity.
  - destruct hasData; simpl; congruence.
Qed.

Lemma run_powerView (calls : list call) :
  forall s1 s2 : Statistics,
    powerView s1 = powerView s2 ->
    powerView (run calls s1) = powerView (run (filter writes_power calls) s2).
Proof.
  induction calls as [|c calls IH]; intros s1 s2 H; [exact H|].
  rewrite run_cons. pose proof (exec_powerView c s1 s2 H) as Hc.
  simpl filter. destruct (writes_power c).
  - rewrite run_cons. now apply IH.
  - now apply IH.
Qed.

Lemma run_frameView (calls : list call) :
  forall s1 s2 : Statistics,
    frameView s1 = frameView s2 ->
    frameView (run calls s1)
    = frameView (run (filter writes_frames calls) s2).
Proof.
  induction calls as [|c calls IH]; intros s1 s2 H; [exact H|].
  rewrite run_cons. pose proof (exec_frameView c s1 s2 H) as Hc.
  simpl filter. destruct (writes_frames c).
  - rewrite run_cons. now apply IH.
  - now apply IH.
Qed.

(** X7. The cumulative current-limiter members after any call sequence
    are those the [updatePowerStats] and [reset] calls of the sequence
    produce on their own; the start time, the period counters and the
    snapshot are those the sequence produces with its [updatePowerStats]
    calls left out.  Frame events, [update], [print] and [lightReset] never
    change a power statistic, and [updatePowerStats] never changes a frame
    statistic. *)
Theorem power_and_frame_statistics_are_independent :
  forall (calls : list call) (st : Statistics),
    powerView (run calls st) = powerView (run (filter writes_power calls) st)
    /\ frameView (run calls st)
       = frameView (run (filter writes_frames calls) st).
Proof.
  intros calls st. split;
    [now apply run_powerView|now apply run_frameView].
Qed.

(** ** The cumulative counts and sums *)

Definition is_updatePowerStats (c : call) : bool :=
  match c with UpdatePowerStats _ _ _ _ => true | _ => false end.

Lemma exec_keeps_counts (c : call) (st : Statistics) :
  writes_power c = false ->
  underpowerFramesCount (exec c st) = underpowerFramesCount st
  /\ framesCount (exec c st) = framesCount st.
Proof.
  intros Hc. pose proof (exec_powerView c st st eq_refl) as H.
  rewrite Hc in H. unfold powerView in H. injection H as _ _ Eu Ef _ _.
  now split.
Qed.

Lemma exec_limited_le_frames (c : call) (st : Statistics) :
  0 <= underpowerFramesCount st <= framesCount st ->
  framesCount st + (if is_updatePowerStats c then 1 else 0) < 2 ^ 64 ->
  0 <= underpowerFramesCount (exec c st) <= framesCount (exec c st)
  /\ framesCount (exec c st)
     <= framesCount st + (if is_updatePowerStats c then 1 else 0).
Proof.
  intros Hst Hbound.
  destruct (writes_power c) eqn:Hw.
  - destruct c as [| | |p u m d|t|t h1 h2 heap|t|t hasData];
      try discriminate Hw; cbn [exec is_updatePowerStats] in *.
    + rewrite updatePowerStats_framesCount,
        updatePowerStats_underpowerFramesCount.
      unfold UInt.wrap64.
      rewrite (wrap_small 64 (framesCount st + 1))
        by (unfold UInt.fits; lia).
      destruct (currentLimited u); [|lia].
      rewrite wrap_small by (unfold UInt.fits; lia). lia.
    + simpl. lia.
  - destruct (exec_keeps_counts c st Hw) as [Eu Ef]. rewrite Eu, Ef.
    destruct (is_updatePowerStats c); lia.
Qed.

Lemma run_limited_le_frames (calls : list call) :
  forall st : Statistics,
    0 <= underpowerFramesCount st <= framesCount st ->
    framesCount st + count is_updatePowerStats calls < 2 ^ 64 ->
    0 <= underpowerFramesCount (run calls st) <= framesCount (run calls st)
    /\ framesCount (run calls st)
       <= framesCount st + count is_updatePowerStats calls.
Proof.
  induction calls as [|c calls IH]; intros st Hst Hbound.
  - unfold count. simpl. lia.
  - rewrite run_cons. rewrite count_cons in Hbound |- *.
    pose proof (count_nonneg is_updatePowerStats calls) as Hn.
    destruct (exec_limited_le_frames c st Hst) as [E1 E2]; [lia|].
    destruct (IH (exec c st) E1) as [I1 I2]; [lia|].
    split; [exact I1|lia].
Qed.

Lemma limited_frames_bound (calls : list call) :
  count is_updatePowerStats calls < 2 ^ 64 ->
  0 <= underpowerFramesCount (run calls initial)
    <= framesCount (run calls initial)
  /\ framesCount (run calls initial) <= count is_updatePowerStats calls.
Proof.
  intros H.
  destruct (run_limited_le_frames calls initial) as [I1 I2];
    simpl; try lia.
  split; [exact I1|]. simpl in I2. lia.
Qed.

(** X8. As long as fewer than 2^64 frames went through [updatePowerStats]
    since the object was created, [underpowerFramesCount] never exceeds
    [framesCount], and [framesCount] never exceeds the number of
    [updatePowerStats] calls, whatever other calls are interleaved. *)
Theorem limited_frames_never_exceed_frames :
  forall calls : list call,
    count is_updatePowerStats calls < 2 ^ 64 ->
    0 <= underpowerFramesCount (run calls initial)
      <= framesCount (run calls initial)
    /\ framesCount (run calls initial) <= count is_updatePowerStats calls.
Proof.
  exact limited_frames_bound.
Qed.

Lemma limited_frames_never_exceed_frames_witness :
  let calls :=
    [UpdatePowerStats Scenario.half Scenario.one 1000 2000; IncreaseTotal;
     UpdatePowerStats Scenario.half Scenario.half 900 900; Update 4;
     UpdatePowerStats Scenario.one Scenario.one 1500 1800] in
  0 <= underpowerFramesCount (run calls initial)
    <= framesCount (run calls initial)
  /\ framesCount (run calls initial) <= 3.
Proof.
  intros calls.
  apply (limited_frames_never_exceed_frames calls).
  vm_compute. reflexivity.
Defined.

(** X9. In a report printed when fewer than 2^64 / 100 frames went through
    [updatePowerStats], the share of current-limited frames is
    [underpowerFramesCount * 100 / framesCount] without wrap-around, a
    whole number from 0 to 100. *)
Theorem limited_share_is_a_percentage :
  forall (calls : list call) (curTime : Z)
         (taskHandle1 taskHandle2 : TaskHandle_t) (freeHeap : Z)
         (rep : Report),
    count is_updatePowerStats calls * 100 < 2 ^ 64 ->
    snd (print curTime taskHandle1 taskHandle2 freeHeap (run calls initial))
    = Ok rep ->
    report_underpowerFramesShare rep
    = report_underpowerFramesCount rep * 100 / report_framesCount rep
    /\ 0 <= report_underpowerFramesShare rep <= 100.
Proof.
  intros calls curTime taskHandle1 taskHandle2 freeHeap rep Hbound H.
  pose proof (count_nonneg is_updatePowerStats calls) as Hn.
  destruct (limited_frames_bound calls) as [[Hu0 Hule] Hf]; [lia|].
  destruct (print_report_inv _ _ _ _ _ _ H)
    as (ma & urma & share & requested & _ & _ & Eshare & _ & ->).
  cbn [report_underpowerFramesShare report_underpowerFramesCount
       report_framesCount].
  apply udiv_Ok in Eshare. destruct Eshare as [Hf0 ->].
  unfold UInt.wrap64. rewrite wrap_small by (unfold UInt.fits; lia).
  split; [reflexivity|]. split.
  - apply Z.div_pos; lia.
  - apply Z.div_le_upper_bound; lia.
Qed.

Lemma limited_share_is_a_percentage_witness :
  exists rep : Report,
    snd (print 9 None None 0
           (run [UpdatePowerStats Scenario.half Scenario.one 1000 2000;
                 UpdatePowerStats Scenario.half Scenario.half 900 900;
                 UpdatePowerStats Scenario.one Scenario.one 1500 1800]
              initial)) = Ok rep
    /\ report_underpowerFramesShare rep = 66
    /\ 0 <= report_underpowerFramesShare rep <= 100.
Proof.
  eexists. split; [vm_compute; reflexivity|]. split; [reflexivity|].
  apply (limited_share_is_a_percentage
           [UpdatePowerStats Scenario.half Scenario.one 1000 2000;
            UpdatePowerStats Scenario.half Scenario.half 900 900;
            UpdatePowerStats Scenario.one Scenario.one 1500 1800]
           9 None None 0).
  - vm_compute. reflexivity.
  - vm_compute. reflexivity.
Defined.

(** The sum of a member over a list of samples. *)
Definition total (f : PowerSample -> Z) (samples : list PowerSample) : Z :=
  fold_right (fun s acc => f s + acc) 0 samples.

Lemma total_cons (f : PowerSample -> Z) (s : PowerSample)
    (samples : list PowerSample) :
  total f (s :: samples) = f s + total f samples.
Proof. reflexivity. Qed.

Lemma recordAll_sums (samples : list PowerSample) :
  forall st : Statistics,
    UInt.fits 64 (milliampsSum st) ->
    UInt.fits 64 (underpowerDesiredMilliampsSum st) ->
    milliampsSum (recordAll samples st)
    = UInt.wrap64 (milliampsSum st + total milliamps samples)
    /\ underpowerDesiredMilliampsSum (recordAll samples st)
       = UInt.wrap64
           (underpowerDesiredMilliampsSum st
            + (total underpowerDesiredMilliamps samples
               + total underpowerDesiredMilliamps (filter limited samples))).
Proof.
  induction samples as [|s samples IH]; intros st Hm Hd.
  - simpl. rewrite !Z.add_0_r. unfold UInt.wrap64. now rewrite !wrap_small.
  - rewrite recordAll_cons.
    pose proof (updatePowerStats_milliampsSum
                  (powerPercentage s) (underpowerPercentage s)
                  (milliamps s) (underpowerDesiredMilliamps s) st) as Em.
    pose proof (updatePowerStats_underpowerDesiredMilliampsSum
                  (powerPercentage s) (underpowerPercentage s)
                  (milliamps s) (underpowerDesiredMilliamps s) st) as Ed.
    fold (record s st) in Em, Ed. fold (limited s) in Ed.
    destruct (IH (record s st)) as [Im Id].
    + rewrite Em. apply wrap64_fits.
    + rewrite Ed. destruct (limited s); apply wrap64_fits.
    + rewrite Im, Id, Em, Ed. simpl filter.
      destruct (limited s); rewrite ?total_cons;
        rewrite ?wrap64_add_l, <- ?Z.add_assoc, ?wrap64_add_l;
        split; f_equal; lia.
Qed.

(** X10. After any sequence of [updatePowerStats] calls from a reset state,
    [milliampsSum] is the sum of the [milliamps] arguments, and
    [underpowerDesiredMilliampsSum] is the sum of the
    [underpowerDesiredMilliamps] arguments over all calls plus their sum
    over the current-limited calls: as 64-bit unsigned numbers always, and
    as integers while those sums fit 64 bits. *)
Theorem power_sums_are_the_sums :
  forall (samples : list PowerSample) (currentTime : Z) (st : Statistics),
    let after := recordAll samples (reset currentTime st) in
    let drawn := total milliamps samples in
    let desired :=
      total underpowerDesiredMilliamps samples
      + total underpowerDesiredMilliamps (filter limited samples) in
    milliampsSum after = UInt.wrap64 drawn
    /\ underpowerDesiredMilliampsSum after = UInt.wrap64 desired
    /\ (UInt.fits 64 drawn -> milliampsSum after = drawn)
    /\ (UInt.fits 64 desired -> underpowerDesiredMilliampsSum after = desired).
Proof.
  intros samples currentTime st after drawn desired.
  assert (Hfit : UInt.fits 64 0) by (unfold UInt.fits; lia).
  destruct (recordAll_sums samples (reset currentTime st) Hfit Hfit)
    as [Em Ed].
  fold after in Em, Ed.
  change (milliampsSum (reset currentTime st)) with 0 in Em.
  change (underpowerDesiredMilliampsSum (reset currentTime st)) with 0 in Ed.
  rewrite !Z.add_0_l in Em, Ed. fold drawn in Em. fold desired in Ed.
  
  repeat split; try assumption.
  - intros H. rewrite Em. now apply wrap_small.
  - intros H. rewrite Ed. now apply wrap_small.
Qed.

Lemma power_sums_are_the_sums_witness :
  milliampsSum (recordAll Scenario.steadyDraw (reset 3 initial)) = 4500
  /\ underpowerDesiredMilliampsSum
       (recordAll Scenario.steadyDraw (reset 3 initial)) = 10300.
Proof.
  destruct (power_sums_are_the_sums Scenario.steadyDraw 3 initial)
    as (_ & _ & Hm & Hd).
  split.
  - apply Hm. unfold UInt.fits. simpl. lia.
  - apply Hd. unfold UInt.fits. vm_compute. split; [discriminate|reflexivity].
Defined.

(** ** Which frames are current-limited *)

(** Rounding in any binary format, on values the format holds exactly. *)
Section ExactRounding.

Variables prec emax : Z.

Lemma digits2_pos_iter_xO (p k : positive) :
  Zpos (digits2_pos (Pos.iter xO p k)) = Zpos (digits2_pos p) + Zpos k.
Proof.
  induction k as [|k IH] using Pos.peano_ind.
  - simpl. lia.
  - rewrite Pos.iter_succ. cbn [digits2_pos].
    rewrite !Pos2Z.inj_succ, IH. lia.
Qed.

(** A mantissa that is canonical for its exponent is already rounded. *)
Lemma binary_round_aux_bounded (s : bool) (m : positive) (e : Z) :
  bounded prec emax m e = true ->
  binary_round_aux prec emax s (Zpos m) e loc_Exact = S754_finite s m e.
Proof.
  unfold bounded, canonical_mantissa. intros H.
  apply andb_true_iff in H. destruct H as [Hc He].
  apply Z.eqb_eq in Hc.
  unfold binary_round_aux, shr_fexp. cbn [Zdigits2].
  rewrite Hc, Z.sub_diag.
  cbn [shr shr_record_of_loc shr_m loc_of_shr_record round_nearest_even
       Zdigits2].
  rewrite Hc, Z.sub_diag. cbn [shr shr_m]. rewrite He. reflexivity.
Qed.

(** A value with room in the mantissa is converted by shifting it left. *)
Lemma binary_round_exact (s : bool) (p : positive) (e : Z) :
  let e' := fexp prec emax (Zpos (digits2_pos p) + e) in
  e' <= e ->
  e' <= emax - prec ->
  exists mz : positive,
    binary_round prec emax s p e = S754_finite s mz e'
    /\ Zpos mz = Zpos p * 2 ^ (e - e')
    /\ Zpos (digits2_pos mz) = Zpos (digits2_pos p) + (e - e').
Proof.
  intros e' Hle Hmax. unfold binary_round, shl_align. fold e'.
  destruct (e' - e) as [|k|k] eqn:Ek; try lia.
  - assert (e' = e) by lia. exists p.
    rewrite binary_round_aux_bounded.
    + replace (e - e') with 0 by lia. rewrite Z.add_0_r. subst e'.
      repeat split; try lia. congruence.
    + unfold bounded, canonical_mantissa. fold e'.
      apply andb_true_iff. split; [apply Z.eqb_eq|apply Z.leb_le]; lia.
  - assert (Hk : Zpos k = e - e') by lia.
    exists (Pos.iter xO p k).
    rewrite binary_round_aux_bounded.
    + rewrite iter_xO_value, digits2_pos_iter_xO, Hk. repeat split.
    + unfold bounded, canonical_mantissa.
      rewrite digits2_pos_iter_xO, Hk.
      replace (Zpos (digits2_pos p) + (e - e') + e')
        with (Zpos (digits2_pos p) + e) by lia.
      fold e'. apply andb_true_iff.
      split; [apply Z.eqb_eq|apply Z.leb_le]; lia.
Qed.

End ExactRounding.

Section CurrentLimited.

(** The comparison of [currentLimited], on a difference the subtraction
    leaves exact: [p * 2^e] against 0x1.4f8b588e368f1p-17. *)
Lemma distance_below_threshold (s : bool) (p : positive) (e : Z) :
  Zpos (digits2_pos p) <= 24 ->
  -69 <= e <= -20 ->
  SFltb
    (Float.to_double
       (SFabs (binary_round 24 128 s p e)))
    Float.lit_0_00001
  = (Zpos p * 2 ^ (e + 69) <? 5902958103587057).
Proof.
  intros Hd He.
  pose proof (digits2_pos_bounds p) as Bp.
  remember (Zpos (digits2_pos p)) as d eqn:Ed.
  rewrite <- ?Ed in Bp.
  assert (Hd1 : 1 <= d) by (subst d; lia).
  destruct (binary_round_exact 24 128 s p e) as (mz & E1 & V1 & D1).
  { rewrite <- Ed. unfold fexp, emin. lia. }
  { rewrite <- Ed. unfold fexp, emin. lia. }
  rewrite <- Ed in E1, V1, D1.
  assert (F1 : fexp 24 128 (d + e) = d + e - 24)
    by (unfold fexp, emin; lia).
  rewrite F1 in E1, V1, D1.
  rewrite E1. cbn [SFabs]. unfold Float.to_double, Float.convert.
  change Float.prec64 with 53. change Float.emax64 with 1024.
  assert (F2 : fexp 53 1024 (Zpos (digits2_pos mz) + (d + e - 24))
               = d + e - 53)
    by (rewrite D1; unfold fexp, emin; lia).
  destruct (binary_round_exact 53 1024 false mz (d + e - 24))
    as (mz2 & E2 & V2 & D2); rewrite ?F2; try lia.
  rewrite F2 in E2, V2, D2. rewrite E2.
  unfold SFltb, SFcompare, Float.lit_0_00001.
  assert (V : Zpos mz2 = Zpos p * 2 ^ (53 - d)).
  { rewrite V2, V1, <- Z.mul_assoc, <- Z.pow_add_r by lia.
    f_equal. f_equal. lia. }
  assert (P52 : 2 ^ 52 = 4503599627370496) by reflexivity.
  assert (P53 : 2 ^ 53 = 9007199254740992) by reflexivity.
  destruct (Z.compare_spec (d + e - 53) (-69)) as [Heq|Hlt|Hgt].
  - assert (Hc : forall a b : positive,
               PosDef.Pos.compare_cont Eq a b = (Zpos a ?= Zpos b))
      by reflexivity.
    rewrite Hc, V. replace (53 - d) with (e + 69) by lia.
    unfold Z.ltb. now destruct (Zpos p * 2 ^ (e + 69) ?= 5902958103587057).
  - symmetry. apply Z.ltb_lt.
    assert (Zpos p * 2 ^ (e + 69) < 2 ^ d * 2 ^ (e + 69)).
    { apply Z.mul_lt_mono_pos_r; [apply Z.pow_pos_nonneg|]; lia. }
    rewrite <- Z.pow_add_r in H by lia.
    assert (2 ^ (d + (e + 69)) <= 2 ^ 52)
      by (apply Z.pow_le_mono_r; lia).
    lia.
  - symmetry. apply Z.ltb_ge.
    assert (2 ^ (d - 1) * 2 ^ (e + 69) <= Zpos p * 2 ^ (e + 69)).
    { apply Z.mul_le_mono_nonneg_r; [apply Z.pow_nonneg|]; lia. }
    rewrite <- Z.pow_add_r in H by lia.
    assert (2 ^ 53 <= 2 ^ (d - 1 + (e + 69)))
      by (apply Z.pow_le_mono_r; lia).
    lia.
Qed.

Lemma digits2_pos_le (p : positive) (n : Z) :
  0 <= n -> Zpos p < 2 ^ n -> Zpos (digits2_pos p) <= n.
Proof.
  intros Hn H. pose proof (digits2_pos_bounds p) as [Hlo _].
  assert (Hlt : 2 ^ (Zpos (digits2_pos p) - 1) < 2 ^ n) by lia.
  apply Z.pow_lt_mono_r_iff in Hlt; lia.
Qed.

(** [1 - u] for [u] in [0.5, 1) and for [u] in [1, 2): the operands are
    aligned on the exponent of [u] and subtracted as integers. *)
Lemma one_minus_below_one (m : positive) :
  SFsub Float.prec32 Float.emax32 (Float.float_of_int 1)
    (S754_finite false m (-24))
  = binary_normalize 24 128 (16777216 - Zpos m) (-24) false.
Proof. reflexivity. Qed.

Lemma one_minus_above_one (m : positive) :
  SFsub Float.prec32 Float.emax32 (Float.float_of_int 1)
    (S754_finite false m (-23))
  = binary_normalize 24 128 (8388608 - Zpos m) (-23) false.
Proof. reflexivity. Qed.

(** X11. Among the [float] values from 0.5 up to 2 (24-bit mantissa [m],
    exponent -24 below 1 and -23 from 1 on), the test
    [fabs(1 - underpowerPercentage) < 0.00001] holds exactly from
    1 - 167 * 2^-24 to 1 + 83 * 2^-23 (0.99999005 to 1.0000099): 168
    values below 1, the value 1 and 83 values above it. *)
Theorem current_limited_band :
  forall m : positive,
    2 ^ 23 <= Zpos m < 2 ^ 24 ->
    currentLimited (S754_finite false m (-24)) = (16777049 <=? Zpos m)
    /\ currentLimited (S754_finite false m (-23)) = (Zpos m <=? 8388691).
Proof.
  intros m Hm.
  assert (P23 : 2 ^ 23 = 8388608) by reflexivity.
  assert (P24 : 2 ^ 24 = 16777216) by reflexivity.
  unfold currentLimited. rewrite one_minus_below_one, one_minus_above_one.
  split.
  - destruct (16777216 - Zpos m) as [|k|k] eqn:Ek; try lia.
    cbn [binary_normalize].
    rewrite (distance_below_threshold false k (-24));
      [|apply digits2_pos_le; lia|lia].
    change (2 ^ (-24 + 69)) with 35184372088832.
    destruct (Z.ltb_spec (Zpos k * 35184372088832) 5902958103587057);
      destruct (Z.leb_spec 16777049 (Zpos m)); try reflexivity; lia.
  - destruct (8388608 - Zpos m) as [|k|k] eqn:Ek; try lia.
    + cbn [binary_normalize]. symmetry. apply Z.leb_le. lia.
    + cbn [binary_normalize].
      rewrite (distance_below_threshold true k (-23));
        [|apply digits2_pos_le; lia|lia].
      change (2 ^ (-23 + 69)) with 70368744177664.
      destruct (Z.ltb_spec (Zpos k * 70368744177664) 5902958103587057);
        destruct (Z.leb_spec (Zpos m) 8388691); try reflexivity; lia.
Qed.

Lemma current_limited_band_witness :
  currentLimited (S754_finite false 16777049 (-24)) = true
  /\ currentLimited (S754_finite false 16777048 (-24)) = false
  /\ currentLimited (S754_finite false 8388691 (-23)) = true
  /\ currentLimited (S754_finite false 8388692 (-23)) = false.
Proof.
  assert (H1 : 2 ^ 23 <= 16777049 < 2 ^ 24) by (simpl; lia).
  assert (H2 : 2 ^ 23 <= 16777048 < 2 ^ 24) by (simpl; lia).
  assert (H3 : 2 ^ 23 <= 8388691 < 2 ^ 24) by (simpl; lia).
  assert (H4 : 2 ^ 23 <= 8388692 < 2 ^ 24) by (simpl; lia).
  exact (conj (proj1 (current_limited_band 16777049 H1))
           (conj (proj1 (current_limited_band 16777048 H2))
              (conj (proj2 (current_limited_band 8388691 H3))
                 (proj2 (current_limited_band 8388692 H4))))).
Defined.

End CurrentLimited.

(** ** The averages are integer quotients *)

Section QuotientRounding.

(** The second half of [binary_round_aux]: the renormalisation of the
    rounded mantissa and the overflow test. *)
Definition finish (sx : bool) (m e : Z) : spec_float :=
  let '(mrs, e') := shr_fexp 53 1024 m e loc_Exact in
  match shr_m mrs with
  | Z0 => S754_zero sx
  | Zpos m' => if e' <=? 1024 - 53 then S754_finite sx m' e'
               else S754_infinity sx
  | Zneg _ => S754_nan
  end.

Lemma binary_round_aux_finish (sx : bool) (mx ex : Z) (lx : location) :
  binary_round_aux 53 1024 sx mx ex lx
  = finish sx
      (round_nearest_even
         (shr_m (fst (shr_fexp 53 1024 mx ex lx)))
         (loc_of_shr_record (fst (shr_fexp 53 1024 mx ex lx))))
      (snd (shr_fexp 53 1024 mx ex lx)).
Proof.
  unfold binary_round_aux, finish.
  now destruct (shr_fexp 53 1024 mx ex lx).
Qed.

(** A mantissa of 53 bits is kept; one of 54 bits loses its last bit, which
    becomes the round bit. *)
Lemma shr_fexp_53 (q : positive) (e : Z) (l : location) :
  Zpos (digits2_pos q) = 53 ->
  -1074 <= e ->
  shr_fexp 53 1024 (Zpos q) e l = (shr_record_of_loc (Zpos q) l, e).
Proof.
  intros Hd He. unfold shr_fexp. cbn [Zdigits2]. rewrite Hd.
  replace (fexp 53 1024 (53 + e) - e) with 0
    by (unfold fexp, emin; lia).
  reflexivity.
Qed.

Lemma shr_fexp_54 (q : positive) (e : Z) (l : location) :
  Zpos (digits2_pos q) = 54 ->
  -1074 <= e + 1 ->
  shr_fexp 53 1024 (Zpos q) e l
  = (shr_1 (shr_record_of_loc (Zpos q) l), e + 1).
Proof.
  intros Hd He. unfold shr_fexp. cbn [Zdigits2]. rewrite Hd.
  replace (fexp 53 1024 (54 + e) - e) with 1
    by (unfold fexp, emin; lia).
  reflexivity.
Qed.

(** The truncation of what [finish] returns is the truncation of the
    rounded mantissa, with or without a carry into bit 54. *)
Lemma truncate_finish (m e : Z) :
  2 ^ 52 <= m <= 2 ^ 53 ->
  -1074 <= e <= 970 ->
  Float.truncate (finish false m e) = Some (Z.shiftl m e).
Proof.
  intros Hm He.
  assert (P52 : 2 ^ 52 = 4503599627370496) by reflexivity.
  assert (P53 : 2 ^ 53 = 9007199254740992) by reflexivity.
  destruct m as [|p|p]; try lia.
  destruct (Z.eq_dec (Zpos p) 9007199254740992) as [E|NE].
  - injection E as ->. unfold finish.
    rewrite shr_fexp_54 by (try reflexivity; lia).
    cbn [shr_record_of_loc shr_1 shr_m orb].
    replace (e + 1 <=? 1024 - 53) with true
      by (symmetry; apply Z.leb_le; lia).
    cbn [Float.truncate cond_Zopp]. f_equal.
    change (Zpos 4503599627370496~0) with (Z.shiftl 4503599627370496 1).
    rewrite Z.shiftl_shiftl by lia. f_equal. lia.
  - assert (Hd : Zpos (digits2_pos p) = 53).
    { apply digits2_pos_unique. change (53 - 1) with 52. lia. }
    unfold finish. rewrite shr_fexp_53 by (assumption || lia).
    cbn [shr_record_of_loc shr_m].
    replace (e <=? 1024 - 53) with true by (symmetry; apply Z.leb_le; lia).
    reflexivity.
Qed.

(** Rounding a quotient of 53 or 54 bits: the mantissa that is truncated
    in the end, and its exponent. *)
Lemma truncate_binary_round_aux (q : positive) (e : Z) (l : location) :
  2 ^ 52 <= Zpos q < 2 ^ 54 ->
  -1074 <= e <= 960 ->
  exists m2 e2 : Z,
    Float.truncate (binary_round_aux 53 1024 false (Zpos q) e l)
    = Some (Z.shiftl m2 e2)
    /\ ((Zpos q < 2 ^ 53 /\ e2 = e /\ (m2 = Zpos q \/ m2 = Zpos q + 1))
        \/ (2 ^ 53 <= Zpos q /\ e2 = e + 1
            /\ (m2 = Zpos q / 2
                \/ (m2 = Zpos q / 2 + 1 /\ Z.odd (Zpos q) = true)))).
Proof.
  intros Hq He.
  assert (P52 : 2 ^ 52 = 4503599627370496) by reflexivity.
  assert (P53 : 2 ^ 53 = 9007199254740992) by reflexivity.
  assert (P54 : 2 ^ 54 = 18014398509481984) by reflexivity.
  rewrite binary_round_aux_finish.
  destruct (Z_lt_le_dec (Zpos q) (2 ^ 53)) as [Hsmall|Hbig].
  - assert (Hd : Zpos (digits2_pos q) = 53).
    { apply digits2_pos_unique. change (53 - 1) with 52. lia. }
    rewrite shr_fexp_53 by (assumption || lia). cbn [fst snd].
    set (m2 := round_nearest_even _ _).
    assert (Hm2 : m2 = Zpos q \/ m2 = Zpos q + 1).
    { subst m2.
      destruct l as [|[| |]];
        cbn [round_nearest_even shr_m loc_of_shr_record shr_record_of_loc];
        try destruct (Z.even (Zpos q)); auto. }
    exists m2, e. split.
    + apply truncate_finish; lia.
    + left. repeat split; assumption.
  - assert (Hd : Zpos (digits2_pos q) = 54).
    { apply digits2_pos_unique. change (54 - 1) with 53. lia. }
    rewrite shr_fexp_54 by (assumption || lia). cbn [fst snd].
    set (m2 := round_nearest_even _ _).
    assert (Hm2 : m2 = Zpos q / 2
                  \/ (m2 = Zpos q / 2 + 1 /\ Z.odd (Zpos q) = true)).
    { subst m2. destruct q as [h|h|]; [| |lia].
      - assert (Eh : Zpos h~1 / 2 = Zpos h)
          by (symmetry; apply Z.div_unique with 1; lia).
        rewrite Eh.
        destruct l as [|[| |]];
          cbn [round_nearest_even shr_m loc_of_shr_record shr_record_of_loc
               shr_1 orb];
          try destruct (Z.even (Zpos h)); auto.
      - assert (Eh : Zpos h~0 / 2 = Zpos h)
          by (symmetry; apply Z.div_unique with 0; lia).
        rewrite Eh.
        destruct l as [|[| |]];
          cbn [round_nearest_even shr_m loc_of_shr_record shr_record_of_loc
               shr_1 orb]; auto. }
    exists m2, (e + 1). split.
    + apply truncate_finish; [|lia].
      assert (2 ^ 52 <= Zpos q / 2 < 2 ^ 53).
      { split; [apply Z.div_le_lower_bound|apply Z.div_lt_upper_bound]; lia. }
      destruct Hm2 as [->|[-> _]]; lia.
    + right. repeat split; assumption.
Qed.

(** The quotient of two normal [double]s, before rounding. *)
Lemma SFdiv_normal (mx my : positive) (ex ey : Z) :
  Zpos (digits2_pos mx) = 53 ->
  Zpos (digits2_pos my) = 53 ->
  -1021 <= ex - ey ->
  SFdiv 53 1024 (S754_finite false mx ex) (S754_finite false my ey)
  = binary_round_aux 53 1024 false
      (Zpos mx * 2 ^ 53 / Zpos my) (ex - ey - 53)
      (new_location (Zpos my) ((Zpos mx * 2 ^ 53) mod Zpos my)).
Proof.
  intros Hdx Hdy He.
  unfold SFdiv, SFdiv_core_binary. cbn [Zdigits2 xorb]. rewrite Hdx, Hdy.
  replace (53 + ex - (53 + ey)) with (ex - ey) by lia.
  rewrite fexp64_normal by lia.
  replace (Z.min (ex - ey - 53) (ex - ey)) with (ex - ey - 53) by lia.
  replace (ex - ey - (ex - ey - 53)) with 53 by lia.
  rewrite Z.shiftl_mul_pow2 by lia.
  unfold Z.div, Z.modulo.
  now destruct (Z.div_eucl (Zpos mx * 2 ^ 53) (Zpos my)).
Qed.

(** Scaling by [2^j] with [n < 2^j], then dropping the [j] bits again:
    neither the scaled quotient nor its successor reaches the next
    integer. *)
Lemma scaled_quotient (s n j : Z) :
  0 <= s ->
  0 <= j ->
  1 <= n < 2 ^ j ->
  (s * 2 ^ j / n) / 2 ^ j = s / n
  /\ (s * 2 ^ j / n + 1) / 2 ^ j = s / n.
Proof.
  intros Hs Hj Hn.
  set (P := 2 ^ j) in *.
  assert (HP : 0 < P) by lia.
  set (q := s * P / n).
  set (K := s / n).
  assert (E1 : q / P = K).
  { unfold q, K. rewrite Z.div_div by lia.
    apply Z.div_mul_cancel_r; lia. }
  split; [exact E1|].
  assert (Hq0 : 0 <= q) by (apply Z.div_pos; [apply Z.mul_nonneg_nonneg|]; lia).
  assert (Hlo : K * P <= q).
  { rewrite <- E1. rewrite Z.mul_comm. apply Z.mul_div_le. lia. }
  assert (HqN : n * q <= s * P) by (apply Z.mul_div_le; lia).
  assert (HsK : s < n * (K + 1)).
  { unfold K. pose proof (Z.div_mod s n ltac:(lia)) as Hdm.
    pose proof (Z.mod_pos_bound s n ltac:(lia)). lia. }
  assert (Hup : q + 1 < (K + 1) * P).
  { destruct (Z_lt_le_dec (q + 1) ((K + 1) * P)) as [H|H]; [exact H|].
    exfalso.
    assert (H1 : n * ((K + 1) * P - 1) <= n * q)
      by (apply Z.mul_le_mono_nonneg_l; lia).
    assert (H2 : (s + 1) * P <= n * (K + 1) * P)
      by (apply Z.mul_le_mono_nonneg_r; lia).
    lia. }
  symmetry. apply Z.div_unique with (q + 1 - K * P). lia. lia.
Qed.

(** The [double] quotient of two integers below 2^53, truncated, is their
    integer quotient. *)
Lemma truncate_quotient (s n : Z) :
  1 <= s < 2 ^ 53 ->
  1 <= n < 2 ^ 53 ->
  Float.truncate
    (SFdiv 53 1024 (Float.double_of_int s) (Float.double_of_int n))
  = Some (s / n).
Proof.
  intros Hs Hn.
  assert (P52 : 2 ^ 52 = 4503599627370496) by reflexivity.
  assert (P53 : 2 ^ 53 = 9007199254740992) by reflexivity.
  assert (P54 : 2 ^ 54 = 18014398509481984) by reflexivity.
  destruct s as [|ps|ps]; try lia. destruct n as [|pn|pn]; try lia.
  destruct (double_of_int_exact ps) as (mx & Ex & Vx & Dx); [lia|].
  destruct (double_of_int_exact pn) as (my & Ey & Vy & Dy); [lia|].
  pose proof (digits2_pos_le_53 ps ltac:(lia)) as Hds.
  pose proof (digits2_pos_le_53 pn ltac:(lia)) as Hdn.
  pose proof (digits2_pos_bounds pn) as Bn.
  pose proof (digits2_pos_bounds mx) as Bx.
  pose proof (digits2_pos_bounds my) as By.
  rewrite Dx in Bx. rewrite Dy in By. change (53 - 1) with 52 in Bx, By.
  remember (Zpos (digits2_pos ps)) as ds eqn:Eds.
  remember (Zpos (digits2_pos pn)) as dn eqn:Edn.
  rewrite <- ?Edn in Bn.
  rewrite Ex, Ey, SFdiv_normal by (assumption || lia).
  set (j := 53 + dn - ds).
  replace (ds - 53 - (dn - 53) - 53) with (- j) by (unfold j; lia).
  assert (Hj : 1 <= j <= 105) by (unfold j; lia).
  assert (HNj : Zpos pn < 2 ^ j).
  { assert (2 ^ dn <= 2 ^ j) by (apply Z.pow_le_mono_r; unfold j; lia).
    lia. }
  assert (Eq : Zpos mx * 2 ^ 53 / Zpos my = Zpos ps * 2 ^ j / Zpos pn).
  { rewrite Vx, Vy.
    assert (Epow : 2 ^ (53 - ds) * 2 ^ 53 = 2 ^ j * 2 ^ (53 - dn)).
    { rewrite <- !Z.pow_add_r by (unfold j; lia).
      f_equal. unfold j. lia. }
    rewrite <- Z.mul_assoc, Epow, Z.mul_assoc.
    apply Z.div_mul_cancel_r; [lia|].
    assert (0 < 2 ^ (53 - dn)) by (apply Z.pow_pos_nonneg; lia). lia. }
  assert (Hq : 2 ^ 52 <= Zpos mx * 2 ^ 53 / Zpos my < 2 ^ 54).
  { split; [apply Z.div_le_lower_bound|apply Z.div_lt_upper_bound]; lia. }
  destruct (scaled_quotient (Zpos ps) (Zpos pn) j) as [Q1 Q2]; try lia.
  rewrite <- Eq in Q1, Q2.
  destruct (Zpos mx * 2 ^ 53 / Zpos my) as [|q|q] eqn:Eqq; try lia.
  destruct (truncate_binary_round_aux q (- j)
              (new_location (Zpos my) ((Zpos mx * 2 ^ 53) mod Zpos my)))
    as (m2 & e2 & Et & Hcases); try lia.
  rewrite Et. f_equal.
  destruct Hcases as [(_ & -> & Hm2)|(_ & -> & Hm2)].
  - rewrite Z.shiftl_div_pow2, Z.opp_involutive by lia.
    destruct Hm2 as [->| ->]; assumption.
  - rewrite Z.shiftl_div_pow2 by lia.
    replace (- (- j + 1)) with (j - 1) by lia.
    assert (Ej : 2 ^ j = 2 * 2 ^ (j - 1)).
    { rewrite <- Z.pow_succ_r by lia. f_equal. lia. }
    assert (0 < 2 ^ (j - 1)) by (apply Z.pow_pos_nonneg; lia).
    destruct Hm2 as [->|[-> Hodd]].
    + rewrite Z.div_div by lia. rewrite <- Ej. exact Q1.
    + assert (Ehalf : Zpos q / 2 + 1 = (Zpos q + 1) / 2).
      { pose proof (Zmod_odd (Zpos q)) as Hmod. rewrite Hodd in Hmod.
        pose proof (Z.div_mod (Zpos q) 2 ltac:(lia)) as Hdm.
        apply Z.div_unique with 0; lia. }
      rewrite Ehalf, Z.div_div by lia. rewrite <- Ej. exact Q2.
Qed.

End QuotientRounding.

(** [(uint32_t) ((double) sum / (double) count)] for operands below 2^53:
    the integer quotient when it is a [uint32_t], undefined otherwise. *)
Lemma milliampsPerFrame_quotient (sum cnt : Z) :
  0 <= sum < 2 ^ 53 ->
  1 <= cnt < 2 ^ 53 ->
  milliampsPerFrame sum cnt
  = if sum / cnt <? 2 ^ 32 then Ok (sum / cnt)
    else Undefined ConversionOutOfRange.
Proof.
  intros Hs Hc. unfold milliampsPerFrame, Float.to_uint32.
  change Float.prec64 with 53. change Float.emax64 with 1024.
  destruct (Z.eq_dec sum 0) as [->|Hs0].
  - destruct cnt as [|pc|pc]; try lia.
    destruct (double_of_int_exact pc) as (my & Ey & _); [lia|].
    rewrite Ey. reflexivity.
  - rewrite truncate_quotient by lia.
    assert (0 <= sum / cnt) by (apply Z.div_pos; lia).
    unfold UInt.fitsb.
    replace (0 <=? sum / cnt) with true by (symmetry; apply Z.leb_le; lia).
    reflexivity.
Qed.

(** X12. While the sums and counts are below 2^53, the two milliamp
    averages of [print] are integer quotients, rounded down:
    [milliampsSum / framesCount] and
    [underpowerDesiredMilliampsSum / underpowerFramesCount], as long as the
    quotient is a [uint32_t]; a quotient of 2^32 or more has no defined
    conversion. *)
Theorem milliamp_averages_are_integer_quotients :
  forall st : Statistics,
    (0 <= milliampsSum st < 2 ^ 53 ->
     1 <= framesCount st < 2 ^ 53 ->
     milliampsAverage st
     = if milliampsSum st / framesCount st <? 2 ^ 32
       then Ok (milliampsSum st / framesCount st)
       else Undefined ConversionOutOfRange)
    /\ (0 <= underpowerDesiredMilliampsSum st < 2 ^ 53 ->
        1 <= underpowerFramesCount st < 2 ^ 53 ->
        underpowerRequestedMilliampsAverage st
        = if underpowerDesiredMilliampsSum st / underpowerFramesCount st
             <? 2 ^ 32
          then Ok (underpowerDesiredMilliampsSum st
                   / underpowerFramesCount st)
          else Undefined ConversionOutOfRange).
Proof.
  intros st. split; intros Hs Hc.
  - now apply milliampsPerFrame_quotient.
  - now apply milliampsPerFrame_quotient.
Qed.

Lemma milliamp_averages_witness :
  let st :=
    recordAll
      [ {| powerPercentage := Scenario.half;
           underpowerPercentage := Scenario.one;
           milliamps := 1000; underpowerDesiredMilliamps := 2000 |};
        {| powerPercentage := Scenario.half;
           underpowerPercentage := Scenario.half;
           milliamps := 701; underpowerDesiredMilliamps := 701 |};
        {| powerPercentage := Scenario.one;
           underpowerPercentage := Scenario.one;
           milliamps := 1500; underpowerDesiredMilliamps := 1900 |} ]
      (reset 4 initial) in
  milliampsAverage st = Ok 1067
  /\ underpowerRequestedMilliampsAverage st = Ok 4250.
Proof.
  intros st.
  destruct (milliamp_averages_are_integer_quotients st) as [Ha Hr].
  split.
  - rewrite Ha; [reflexivity|vm_compute; split; [discriminate|reflexivity]
                |vm_compute; split; [discriminate|reflexivity]].
  - rewrite Hr; [reflexivity|vm_compute; split; [discriminate|reflexivity]
                |vm_compute; split; [discriminate|reflexivity]].
Defined.

Lemma total_fits (f : PowerSample -> Z) (samples : list PowerSample) :
  Forall (fun s => UInt.fits 32 (f s)) samples ->
  0 <= total f samples <= Z.of_nat (length samples) * (2 ^ 32 - 1).
Proof.
  induction 1 as [|s samples Hs _ IH].
  - simpl. lia.
  - rewrite total_cons. cbn [length]. rewrite Nat2Z.inj_succ.
    unfold UInt.fits in Hs. lia.
Qed.

(** The mean current after samples from a reset state. *)
Lemma milliamps_mean :
  forall (samples : list PowerSample) (currentTime : Z) (st : Statistics),
    samples <> [] ->
    Forall (fun s => UInt.fits 32 (milliamps s)) samples ->
    total milliamps samples < 2 ^ 53 ->
    Z.of_nat (length samples) < 2 ^ 53 ->
    milliampsAverage (recordAll samples (reset currentTime st))
    = Ok (total milliamps samples / Z.of_nat (length samples)).
Proof.
  intros samples currentTime st Hne Hfit Hsum Hlen.
  assert (Hfit0 : UInt.fits 64 0) by (unfold UInt.fits; lia).
  assert (Hn : 1 <= Z.of_nat (length samples)).
  { destruct samples; [congruence|]. cbn [length]. lia. }
  pose proof (total_fits milliamps samples Hfit) as Ht.
  destruct (recordAll_sums samples (reset currentTime st) Hfit0 Hfit0)
    as [Em _].
  destruct (recordAll_counts samples (reset currentTime st) Hfit0 Hfit0)
    as [Ef _].
  change (milliampsSum (reset currentTime st)) with 0 in Em.
  change (framesCount (reset currentTime st)) with 0 in Ef.
  rewrite Z.add_0_l in Em, Ef. unfold UInt.wrap64 in Em, Ef.
  rewrite wrap_small in Em by (unfold UInt.fits; lia).
  rewrite wrap_small in Ef by (unfold UInt.fits; lia).
  unfold milliampsAverage. rewrite Em, Ef.
  rewrite milliampsPerFrame_quotient by lia.
  assert (Hq : total milliamps samples / Z.of_nat (length samples)
               < 2 ^ 32).
  { apply Z.div_lt_upper_bound; lia. }
  apply Z.ltb_lt in Hq. rewrite Hq. reflexivity.
Qed.

(** X13. After one or more [updatePowerStats] calls from a reset state,
    with [uint32_t] currents whose sum is below 2^53, [milliampsAverage] is
    always defined: it is the sum of the [milliamps] arguments divided by
    the number of calls, rounded down. *)
Theorem milliamps_average_is_the_mean :
  forall (samples : list PowerSample) (currentTime : Z) (st : Statistics),
    samples <> [] ->
    Forall (fun s => UInt.fits 32 (milliamps s)) samples ->
    total milliamps samples < 2 ^ 53 ->
    Z.of_nat (length samples) < 2 ^ 53 ->
    milliampsAverage (recordAll samples (reset currentTime st))
    = Ok (total milliamps samples / Z.of_nat (length samples)).
Proof. exact milliamps_mean. Qed.

Lemma milliamps_average_is_the_mean_witness :
  milliampsAverage (recordAll Scenario.steadyDraw (reset 7 initial))
  = Ok (total milliamps Scenario.steadyDraw / 3).
Proof.
  assert (H1 : Scenario.steadyDraw <> []) by discriminate.
  assert (H2 : Forall (fun s => UInt.fits 32 (milliamps s))
                 Scenario.steadyDraw)
    by (repeat constructor; unfold UInt.fits; simpl; lia).
  assert (H3 : total milliamps Scenario.steadyDraw < 2 ^ 53)
    by (vm_compute; reflexivity).
  assert (H4 : Z.of_nat (length Scenario.steadyDraw) < 2 ^ 53)
    by (vm_compute; reflexivity).
  exact (milliamps_average_is_the_mean Scenario.steadyDraw 7 initial
           H1 H2 H3 H4).
Defined.

(** The requested average after samples from a reset state. *)
Lemma requested_average (samples : list PowerSample) (currentTime : Z)
    (st : Statistics) :
  Forall (fun s => UInt.fits 32 (underpowerDesiredMilliamps s)) samples ->
  1 <= Z.of_nat (length (filter limited samples)) ->
  total underpowerDesiredMilliamps samples
  + total underpowerDesiredMilliamps (filter limited samples) < 2 ^ 53 ->
  Z.of_nat (length samples) < 2 ^ 53 ->
  underpowerRequestedMilliampsAverage
    (recordAll samples (reset currentTime st))
  = (if (total underpowerDesiredMilliamps samples
         + total underpowerDesiredMilliamps (filter limited samples))
        / Z.of_nat (length (filter limited samples)) <? 2 ^ 32
     then Ok ((total underpowerDesiredMilliamps samples
               + total underpowerDesiredMilliamps (filter limited samples))
              / Z.of_nat (length (filter limited samples)))
     else Undefined ConversionOutOfRange).
Proof.
  intros Hfit Hlim Hsum Hlen.
  assert (Hfit0 : UInt.fits 64 0) by (unfold UInt.fits; lia).
  pose proof (total_fits underpowerDesiredMilliamps samples Hfit) as Ht.
  assert (Hfit' : Forall (fun s => UInt.fits 32 (underpowerDesiredMilliamps s))
                    (filter limited samples)).
  { apply Forall_forall. intros x Hx. apply filter_In in Hx.
    destruct Hx as [Hx _]. revert x Hx. now apply Forall_forall. }
  pose proof (total_fits underpowerDesiredMilliamps _ Hfit') as Ht'.
  pose proof (filter_length_le limited samples) as Hle.
  destruct (recordAll_sums samples (reset currentTime st) Hfit0 Hfit0)
    as [_ Ed].
  destruct (recordAll_counts samples (reset currentTime st) Hfit0 Hfit0)
    as [_ Eu].
  change (underpowerDesiredMilliampsSum (reset currentTime st))
    with 0 in Ed.
  change (underpowerFramesCount (reset currentTime st)) with 0 in Eu.
  rewrite Z.add_0_l in Ed, Eu. unfold UInt.wrap64 in Ed, Eu.
  rewrite wrap_small in Ed by (unfold UInt.fits; lia).
  rewrite wrap_small in Eu by (unfold UInt.fits; lia).
  unfold underpowerRequestedMilliampsAverage. rewrite Ed, Eu.
  apply milliampsPerFrame_quotient; lia.
Qed.

(** X14. After [updatePowerStats] calls from a reset state of which at
    least one was current-limited (currents [uint32_t], sums below 2^53),
    the requested average of [print] is the desired current summed over
    all frames plus once more over the limited frames, divided by the
    number of limited frames only.  When that quotient reaches 2^32 its
    conversion to [uint32_t] is undefined and [print] formats no report:
    one limited frame among many unlimited ones is enough. *)
Theorem requested_average_divides_by_limited_frames :
  forall (samples : list PowerSample) (currentTime curTime : Z)
         (taskHandle1 taskHandle2 : TaskHandle_t) (freeHeap : Z)
         (st : Statistics),
    let after := recordAll samples (reset currentTime st) in
    let desired :=
      total underpowerDesiredMilliamps samples
      + total underpowerDesiredMilliamps (filter limited samples) in
    let limitedFrames := Z.of_nat (length (filter limited samples)) in
    Forall (fun s => UInt.fits 32 (underpowerDesiredMilliamps s)) samples ->
    1 <= limitedFrames ->
    desired < 2 ^ 53 ->
    Z.of_nat (length samples) < 2 ^ 53 ->
    underpowerRequestedMilliampsAverage after
    = (if desired / limitedFrames <? 2 ^ 32
       then Ok (desired / limitedFrames)
       else Undefined ConversionOutOfRange)
    /\ (2 ^ 32 <= desired / limitedFrames ->
        forall rep : Report,
          snd (print curTime taskHandle1 taskHandle2 freeHeap after)
          <> Ok rep).
Proof.
  intros samples currentTime curTime taskHandle1 taskHandle2 freeHeap st
    after desired limitedFrames Hfit Hlim Hsum Hlen.
  pose proof (requested_average samples currentTime st Hfit Hlim Hsum Hlen)
    as E.
  fold after desired limitedFrames in E.
  split; [exact E|].
  intros Hover rep Hrep.
  destruct (print_report_inv _ _ _ _ _ _ Hrep)
    as (ma & urma & _ & _ & _ & Eurma & _).
  rewrite E in Eurma.
  replace (desired / limitedFrames <? 2 ^ 32) with false in Eurma
    by (symmetry; apply Z.ltb_ge; exact Hover).
  discriminate Eurma.
Qed.

Lemma requested_average_witness :
  let samples :=
    [ Scenario.fullScale;
      {| powerPercentage := Scenario.half;
         underpowerPercentage := Scenario.half;
         milliamps := 4294967295;
         underpowerDesiredMilliamps := 4294967295 |};
      {| powerPercentage := Scenario.half;
         underpowerPercentage := Scenario.half;
         milliamps := 4294967295;
         underpowerDesiredMilliamps := 4294967295 |} ] in
  underpowerRequestedMilliampsAverage
    (recordAll Scenario.steadyDraw (reset 3 initial)) = Ok 5150
  /\ underpowerRequestedMilliampsAverage (recordAll samples (reset 3 initial))
     = Undefined ConversionOutOfRange
  /\ forall rep : Report,
       snd (print 9 None None 0 (recordAll samples (reset 3 initial)))
       <> Ok rep.
Proof.
  intros samples.
  assert (F1 : Forall (fun s => UInt.fits 32 (underpowerDesiredMilliamps s))
                 Scenario.steadyDraw)
    by (repeat constructor; unfold UInt.fits; simpl; lia).
  assert (F2 : Forall (fun s => UInt.fits 32 (underpowerDesiredMilliamps s))
                 samples)
    by (repeat constructor; unfold UInt.fits; simpl; lia).
  assert (L1 : 1 <= Z.of_nat (length (filter limited Scenario.steadyDraw)))
    by (vm_compute; discriminate).
  assert (L2 : 1 <= Z.of_nat (length (filter limited samples)))
    by (vm_compute; discriminate).
  assert (S1 : total underpowerDesiredMilliamps Scenario.steadyDraw
               + total underpowerDesiredMilliamps
                   (filter limited Scenario.steadyDraw) < 2 ^ 53)
    by (vm_compute; reflexivity).
  assert (S2 : total underpowerDesiredMilliamps samples
               + total underpowerDesiredMilliamps (filter limited samples)
               < 2 ^ 53)
    by (vm_compute; reflexivity).
  assert (N1 : Z.of_nat (length Scenario.steadyDraw) < 2 ^ 53)
    by (vm_compute; reflexivity).
  assert (N2 : Z.of_nat (length samples) < 2 ^ 53)
    by (vm_compute; reflexivity).
  split; [|split].
  - exact (proj1 (requested_average_divides_by_limited_frames
                    Scenario.steadyDraw 3 9 None None 0 initial
                    F1 L1 S1 N1)).
  - exact (proj1 (requested_average_divides_by_limited_frames
                    samples 3 9 None None 0 initial F2 L2 S2 N2)).
  - apply (proj2 (requested_average_divides_by_limited_frames
                    samples 3 9 None None 0 initial F2 L2 S2 N2)).
    vm_compute. discriminate.
Defined.

(** The report of [print], read forwards: defined as soon as the two
    milliamp averages are, the frame count is not zero and the average
    current is not zero. *)
Lemma print_report_defined (curTime : Z)
    (taskHandle1 taskHandle2 : TaskHandle_t) (freeHeap : Z)
    (st : Statistics) (ma urma : Z) :
  milliampsAverage st = Ok ma ->
  underpowerRequestedMilliampsAverage st = Ok urma ->
  framesCount st <> 0 ->
  ma <> 0 ->
  exists rep : Report,
    snd (print curTime taskHandle1 taskHandle2 freeHeap st) = Ok rep
    /\ report_framesCount rep = framesCount st
    /\ report_underpowerFramesCount rep = underpowerFramesCount st
    /\ report_underpowerFramesShare rep
       = UInt.wrap64 (underpowerFramesCount st * 100) / framesCount st
    /\ report_milliampsAverage rep = ma
    /\ report_underpowerRequestedMilliampsAverage rep = urma
    /\ report_requestedShare rep = UInt.wrap32 (urma * 100) / ma.
Proof.
  intros Ema Eurma Hf Hma.
  unfold print. cbn [snd]. unfold render.
  change (milliampsAverage _) with (milliampsAverage st).
  change (underpowerRequestedMilliampsAverage _)
    with (underpowerRequestedMilliampsAverage st).
  rewrite Ema, Eurma. cbn [bind]. unfold udiv.
  change (framesCount (set_showFrames _ _)) with (framesCount st).
  destruct (Z.eqb_spec (framesCount st) 0) as [|_]; [contradiction|].
  cbn [bind].
  destruct (Z.eqb_spec ma 0) as [|_]; [contradiction|].
  cbn [bind]. eexists. split; [reflexivity|]. repeat split.
Qed.

(** X15. After [updatePowerStats] calls from a reset state with
    [uint32_t] currents, sums below 2^53, at least one current-limited
    frame, a mean current of at least 1 mA and a requested average below
    2^32, [print] does format a report, and its integer values are: the
    number of calls, the number of limited calls, their share in percent,
    the mean of the currents, and the requested average of X14. *)
Theorem report_after_power_samples :
  forall (samples : list PowerSample) (currentTime curTime : Z)
         (taskHandle1 taskHandle2 : TaskHandle_t) (freeHeap : Z)
         (st : Statistics),
    let after := recordAll samples (reset currentTime st) in
    let frames := Z.of_nat (length samples) in
    let limitedFrames := Z.of_nat (length (filter limited samples)) in
    let drawn := total milliamps samples in
    let desired :=
      total underpowerDesiredMilliamps samples
      + total underpowerDesiredMilliamps (filter limited samples) in
    Forall (fun s => UInt.fits 32 (milliamps s)) samples ->
    Forall (fun s => UInt.fits 32 (underpowerDesiredMilliamps s)) samples ->
    1 <= limitedFrames ->
    frames < 2 ^ 53 ->
    drawn < 2 ^ 53 ->
    desired < 2 ^ 53 ->
    frames <= drawn ->
    desired / limitedFrames < 2 ^ 32 ->
    exists rep : Report,
      snd (print curTime taskHandle1 taskHandle2 freeHeap after) = Ok rep
      /\ report_framesCount rep = frames
      /\ report_underpowerFramesCount rep = limitedFrames
      /\ report_underpowerFramesShare rep = limitedFrames * 100 / frames
      /\ report_milliampsAverage rep = drawn / frames
      /\ report_underpowerRequestedMilliampsAverage rep
         = desired / limitedFrames
      /\ report_requestedShare rep
         = UInt.wrap32 (desired / limitedFrames * 100) / (drawn / frames).
Proof.
  intros samples currentTime curTime taskHandle1 taskHandle2 freeHeap st
    after frames limitedFrames drawn desired
    Hfm Hfd Hlim Hframes Hdrawn Hdesired Hmean Hreq.
  assert (Hfit0 : UInt.fits 64 0) by (unfold UInt.fits; lia).
  pose proof (filter_length_le limited samples) as Hle.
  assert (Hne : samples <> []).
  { intros ->. subst limitedFrames. simpl in Hlim. lia. }
  destruct (recordAll_counts samples (reset currentTime st) Hfit0 Hfit0)
    as [Ef Eu].
  fold after in Ef, Eu.
  change (framesCount (reset currentTime st)) with 0 in Ef.
  change (underpowerFramesCount (reset currentTime st)) with 0 in Eu.
  rewrite Z.add_0_l in Ef, Eu. fold frames in Ef. fold limitedFrames in Eu.
  unfold UInt.wrap64 in Ef, Eu.
  rewrite wrap_small in Ef by (unfold UInt.fits; subst frames; lia).
  rewrite wrap_small in Eu
    by (unfold UInt.fits; subst frames limitedFrames; lia).
  pose proof (milliamps_mean samples currentTime st Hne Hfm Hdrawn Hframes)
    as Ema.
  fold after drawn frames in Ema.
  pose proof (requested_average samples currentTime st Hfd Hlim Hdesired
                Hframes) as Eurma.
  fold after desired limitedFrames in Eurma.
  apply Z.ltb_lt in Hreq. rewrite Hreq in Eurma.
  assert (Hmean1 : 1 <= drawn / frames)
    by (apply Z.div_le_lower_bound; subst frames; lia).
  destruct (print_report_defined curTime taskHandle1 taskHandle2 freeHeap
              after _ _ Ema Eurma)
    as (rep & Hrep & R1 & R2 & R3 & R4 & R5 & R6); try lia.
  exists rep. rewrite R1, R2, R3, R4, R5, R6, Ef, Eu.
  unfold UInt.wrap64 at 1.
  rewrite wrap_small by (unfold UInt.fits; subst frames limitedFrames; lia).
  repeat split. exact Hrep.
Qed.

Lemma report_after_power_samples_witness :
  exists rep : Report,
    snd (print 9 None None 0 (recordAll Scenario.steadyDraw (reset 7 initial)))
    = Ok rep
    /\ report_framesCount rep = 3
    /\ report_underpowerFramesCount rep = 2
    /\ report_underpowerFramesShare rep = 66
    /\ report_milliampsAverage rep = 1500
    /\ report_underpowerRequestedMilliampsAverage rep = 5150
    /\ report_requestedShare rep = 343.
Proof.
  assert (F1 : Forall (fun s => UInt.fits 32 (milliamps s))
                 Scenario.steadyDraw)
    by (repeat constructor; unfold UInt.fits; simpl; lia).
  assert (F2 : Forall (fun s => UInt.fits 32 (underpowerDesiredMilliamps s))
                 Scenario.steadyDraw)
    by (repeat constructor; unfold UInt.fits; simpl; lia).
  assert (L : 1 <= Z.of_nat (length (filter limited Scenario.steadyDraw)))
    by (vm_compute; discriminate).
  assert (N : Z.of_nat (length Scenario.steadyDraw) < 2 ^ 53)
    by (vm_compute; reflexivity).
  assert (S1 : total milliamps Scenario.steadyDraw < 2 ^ 53)
    by (vm_compute; reflexivity).
  assert (S2 : total underpowerDesiredMilliamps Scenario.steadyDraw
               + total underpowerDesiredMilliamps
                   (filter limited Scenario.steadyDraw) < 2 ^ 53)
    by (vm_compute; reflexivity).
  assert (M : Z.of_nat (length Scenario.steadyDraw)
              <= total milliamps Scenario.steadyDraw)
    by (vm_compute; discriminate).
  assert (Q : (total underpowerDesiredMilliamps Scenario.steadyDraw
               + total underpowerDesiredMilliamps
                   (filter limited Scenario.steadyDraw))
              / Z.of_nat (length (filter limited Scenario.steadyDraw))
              < 2 ^ 32)
    by (vm_compute; reflexivity).
  exact (report_after_power_samples Scenario.steadyDraw 7 9 None None 0
           initial F1 F2 L N S1 S2 M Q).
Defined.

(** Zero, the infinities and NaN are never current-limited. *)
Lemma currentLimited_special_values (s : bool) :
  currentLimited (S754_zero s) = false
  /\ currentLimited (S754_infinity s) = false
  /\ currentLimited S754_nan = false.
Proof. destruct s; vm_compute; repeat split. Qed.
